(** * PortfolioStockTracker: the transaction ledger and its replay engine

    A shallow embedding of [transaction.py], [stock.py], [portfolio.py] and
    [data_store.py], and the properties of the ledger replay proved over it.

    Conventions of the embedding.
    - A Python [float] is idealised as an exact rational ([Qc]), without
      [nan] and the infinities: the development is about the accounting
      rules, not about IEEE rounding. Division keeps Python's failure:
      dividing by zero raises [ZeroDivisionError].
    - A dynamically typed Python value (what [json.load] returns, what a
      constructor receives) is a [pyval].
    - A Python [dict] is an insertion-ordered association list with unique
      keys ([dict_set] overwrites in place or appends), a [defaultdict] is the
      same with a default entry created on first access.
    - Code that can raise returns a [result]; the exceptions are the ones the
      modelled code can raise.
    - The standard-library calls on [datetime] and [float(str)] are taken as
      an interface ([PyLib]) with the one law the code relies on. *)

From Stdlib Require Import QArith Qcanon Ascii String.
From stdpp Require Import base tactics option list strings numbers.

Local Open Scope string_scope.
Local Open Scope list_scope.
Local Open Scope Qc_scope.

(** ** Exceptions and the error monad *)

Inductive exn :=
| KeyError (key : string)
| ValueError
| TypeError
| AttributeError
| ZeroDivisionError
| JSONDecodeError.

Inductive result (A : Type) :=
| Ok (a : A)
| Raise (e : exn).
Arguments Ok {A} a.
Arguments Raise {A} e.

#[global] Instance result_ret : MRet result := λ A a, Ok a.
#[global] Instance result_bind : MBind result := λ A B f m,
  match m with
  | Ok a => f a
  | Raise e => Raise e
  end.
#[global] Instance result_fmap : FMap result := λ A B f m,
  match m with
  | Ok a => Ok (f a)
  | Raise e => Raise e
  end.

(** A [for] loop whose body can raise: the first exception ends the loop. *)
Fixpoint foldM {A B : Type} (f : B → A → result B) (l : list A) (b : B)
  : result B :=
  match l with
  | [] => Ok b
  | x :: l' => b' ← f b x; foldM f l' b'
  end.

(** [try: body except (caught...): handler]. *)
Definition try_except {A : Type} (body : result A) (caught : exn → bool)
    (handler : exn → result A) : result A :=
  match body with
  | Ok a => Ok a
  | Raise e => if caught e then handler e else Raise e
  end.

(** ** Numbers *)

(** [x / y] on floats. *)
Definition py_div (x y : Qc) : result Qc :=
  if decide (y = 0) then Raise ZeroDivisionError else Ok (x / y).

(** Decision of equality of two rationals by computation on their
    representatives. *)
Definition Qc_eqb (x y : Qc) : bool := Qeq_bool x y.

(** ** Python values and dictionaries *)

#[local] Unset Elimination Schemes.
Inductive pyval :=
| PNone
| PBool (b : bool)
| PNum (x : Qc)
| PStr (s : string)
| PList (l : list pyval)
| PDict (d : list (string * pyval)).
#[local] Set Elimination Schemes.

Abbreviation dict V := (list (string * V)) (only parsing).

Fixpoint dict_get {V : Type} (k : string) (d : dict V) : option V :=
  match d with
  | [] => None
  | (k', v) :: d' => if decide (k' = k) then Some v else dict_get k d'
  end.

(** [d[k] = v]: overwrite in place when the key is there, else append. *)
Fixpoint dict_set {V : Type} (k : string) (v : V) (d : dict V) : dict V :=
  match d with
  | [] => [(k, v)]
  | (k', v') :: d' =>
      if decide (k' = k) then (k', v) :: d' else (k', v') :: dict_set k v d'
  end.

Definition dict_values {V : Type} (d : dict V) : list V := map snd d.
Definition dict_keys {V : Type} (d : dict V) : list string := map fst d.

(** [{k: f(v) for k, v in d.items()}]. *)
Definition dict_map {V W : Type} (f : V → W) (d : dict V) : dict W :=
  map (λ kv, (kv.1, f kv.2)) d.

(** [data[k]]: only a dict can be subscripted with a string. *)
Definition getitem (data : pyval) (k : string) : result pyval :=
  match data with
  | PDict d =>
      match dict_get k d with
      | Some v => Ok v
      | None => Raise (KeyError k)
      end
  | _ => Raise TypeError
  end.

(** [data.get(k, dflt)]: only a dict has the method. *)
Definition get_method (data : pyval) (k : string) (dflt : pyval)
  : result pyval :=
  match data with
  | PDict d => Ok (default dflt (dict_get k d))
  | _ => Raise AttributeError
  end.

(** [v.items()]. *)
Definition items (v : pyval) : result (dict pyval) :=
  match v with
  | PDict d => Ok d
  | _ => Raise AttributeError
  end.

Fixpoint chars (s : string) : list pyval :=
  match s with
  | EmptyString => []
  | String c s' => PStr (String c EmptyString) :: chars s'
  end.

(** [for x in v]: a list yields its elements, a dict its keys, a string its
    characters; nothing else is iterable. *)
Definition py_iter (v : pyval) : result (list pyval) :=
  match v with
  | PList l => Ok l
  | PDict d => Ok (map PStr (dict_keys d))
  | PStr s => Ok (chars s)
  | _ => Raise TypeError
  end.

(** Truth value of [v], as [v or ...] tests it. *)
Definition truthy (v : pyval) : bool :=
  match v with
  | PNone => false
  | PBool b => b
  | PNum x => negb (Qc_eqb x 0)
  | PStr s => negb (bool_decide (s = EmptyString))
  | PList l => match l with [] => false | _ :: _ => true end
  | PDict d => match d with [] => false | _ :: _ => true end
  end.

Definition py_or (v w : pyval) : pyval := if truthy v then v else w.

Definition ascii_upper (c : ascii) : ascii :=
  let n := nat_of_ascii c in
  if (97 <=? n)%nat && (n <=? 122)%nat then ascii_of_nat (n - 32) else c.

Fixpoint str_upper (s : string) : string :=
  match s with
  | EmptyString => EmptyString
  | String c s' => String (ascii_upper c) (str_upper s')
  end.

(** [v.upper()]: a method of strings only. *)
Definition upper (v : pyval) : result string :=
  match v with
  | PStr s => Ok (str_upper s)
  | _ => Raise AttributeError
  end.

(** ** The standard-library interface *)

Class PyLib := {
  datetime : Type;
  (** [d.isoformat()] *)
  isoformat : datetime → string;
  (** [datetime.fromisoformat(s)], [None] for [ValueError] *)
  fromisoformat : string → option datetime;
  (** [d.strftime('%Y%m%d%H%M%S%f')] *)
  strftime_compact : datetime → string;
  (** [float(s)] on a string, [None] for [ValueError] *)
  float_of_str : string → option Qc;
  fromisoformat_isoformat : ∀ d, fromisoformat (isoformat d) = Some d
}.

Section Definitions.
Context `{PyLib}.

(** [float(v)]. A number of the snapshot is taken within the range of a
    float: the [OverflowError] of an integer beyond it is left out. *)
Definition py_float (v : pyval) : result Qc :=
  match v with
  | PNum x => Ok x
  | PBool b => Ok (if b then 1 else 0)
  | PStr s =>
      match float_of_str s with
      | Some x => Ok x
      | None => Raise ValueError
      end
  | _ => Raise TypeError
  end.

(** [datetime.fromisoformat(v)]. *)
Definition py_fromisoformat (v : pyval) : result datetime :=
  match v with
  | PStr s =>
      match fromisoformat s with
      | Some d => Ok d
      | None => Raise ValueError
      end
  | _ => Raise TypeError
  end.

(** ** transaction.py *)

Inductive TransactionType := BUY | SELL | DIVIDEND.

#[global] Instance TransactionType_eq_dec : EqDecision TransactionType.
Proof. solve_decision. Defined.

Definition TransactionType_value (k : TransactionType) : string :=
  match k with
  | BUY => "BUY"
  | SELL => "SELL"
  | DIVIDEND => "DIVIDEND"
  end.

(** [TransactionType(v)]: lookup of an enum member by value. *)
Definition TransactionType_of_value (v : pyval) : result TransactionType :=
  match v with
  | PStr s =>
      if decide (s = "BUY") then Ok BUY
      else if decide (s = "SELL") then Ok SELL
      else if decide (s = "DIVIDEND") then Ok DIVIDEND
      else Raise ValueError
  | _ => Raise ValueError
  end.

Record Transaction := {
  ticker : string;
  transaction_type : TransactionType;
  quantity : Qc;
  price : Qc;
  date : datetime;
  transaction_id : pyval
}.

Definition Transaction_generate_id (tk : string) (d : datetime) : string :=
  tk +:+ "_" +:+ strftime_compact d.

(** [Transaction.__init__]. [now] is what [datetime.now()] returns at the
    call; it is consulted only when no date is supplied. *)
Definition Transaction_init (now : datetime) (tk : pyval)
    (kind : TransactionType) (qty prc : pyval) (dt : option datetime)
    (tid : pyval) : result Transaction :=
  tk' ← upper tk;
  q ← py_float qty;
  p ← py_float prc;
  let d := default now dt in
  Ok {| ticker := tk';
        transaction_type := kind;
        quantity := q;
        price := p;
        date := d;
        transaction_id :=
          py_or tid (PStr (Transaction_generate_id tk' d)) |}.

Definition total_value (t : Transaction) : Qc := quantity t * price t.

Definition Transaction_to_dict (t : Transaction) : pyval :=
  PDict [("transaction_id", transaction_id t);
         ("ticker", PStr (ticker t));
         ("transaction_type", PStr (TransactionType_value (transaction_type t)));
         ("quantity", PNum (quantity t));
         ("price", PNum (price t));
         ("date", PStr (isoformat (date t)));
         ("total_value", PNum (total_value t))].

Definition Transaction_from_dict (now : datetime) (data : pyval)
  : result Transaction :=
  tk ← getitem data "ticker";
  tyv ← getitem data "transaction_type";
  kind ← TransactionType_of_value tyv;
  qty ← getitem data "quantity";
  prc ← getitem data "price";
  dv ← getitem data "date";
  d ← py_fromisoformat dv;
  tid ← get_method data "transaction_id" PNone;
  Transaction_init now tk kind qty prc (Some d) tid.

(** ** stock.py *)

Record Stock := {
  stock_ticker : string;
  stock_name : pyval
}.

(** [Stock.__init__] on a ticker that is a string. *)
Definition Stock_new (tk : string) (nm : pyval) : Stock :=
  {| stock_ticker := str_upper tk; stock_name := py_or nm (PStr tk) |}.

(** [Stock.__init__]: [ticker.upper()] needs a string. *)
Definition Stock_init (tk : pyval) (nm : pyval) : result Stock :=
  match tk with
  | PStr s => Ok (Stock_new s nm)
  | _ => Raise AttributeError
  end.

Definition Stock_to_dict (s : Stock) : pyval :=
  PDict [("ticker", PStr (stock_ticker s)); ("name", stock_name s)].

Definition Stock_from_dict (data : pyval) : result Stock :=
  tk ← getitem data "ticker";
  nm ← get_method data "name" (PStr EmptyString);
  Stock_init tk nm.

(** ** portfolio.py *)

Record Holding := {
  holding_ticker : string;
  holding_quantity : Qc;
  average_cost : Qc
}.

Definition Holding_init (tk : string) (qty avg : Qc) : Holding :=
  {| holding_ticker := str_upper tk;
     holding_quantity := qty;
     average_cost := avg |}.

Definition total_cost (h : Holding) : Qc :=
  holding_quantity h * average_cost h.

Definition Holding_to_dict (h : Holding) : pyval :=
  PDict [("ticker", PStr (holding_ticker h));
         ("quantity", PNum (holding_quantity h));
         ("average_cost", PNum (average_cost h));
         ("total_cost", PNum (total_cost h))].

Record Portfolio := {
  name : pyval;
  transactions : list Transaction;
  stocks : dict Stock
}.

Definition Portfolio_init (nm : pyval) : Portfolio :=
  {| name := nm; transactions := []; stocks := [] |}.

Definition add_transaction (self : Portfolio) (t : Transaction) : Portfolio :=
  {| name := name self;
     transactions := transactions self ++ [t];
     stocks :=
       match dict_get (ticker t) (stocks self) with
       | Some _ => stocks self
       | None =>
           dict_set (ticker t) (Stock_new (ticker t) (PStr EmptyString)) (stocks self)
       end |}.

Definition add_stock (self : Portfolio) (s : Stock) : Portfolio :=
  {| name := name self;
     transactions := transactions self;
     stocks := dict_set (stock_ticker s) s (stocks self) |}.

(** The per-ticker accumulator [{'quantity': ..., 'total_cost': ...}] of both
    replays. *)
Record entry := {
  open_quantity : Qc;
  open_cost_basis : Qc
}.

Definition entry_zero : entry :=
  {| open_quantity := 0; open_cost_basis := 0 |}.

Definition add_quantity (x : Qc) (e : entry) : entry :=
  {| open_quantity := open_quantity e + x;
     open_cost_basis := open_cost_basis e |}.

Definition add_cost (x : Qc) (e : entry) : entry :=
  {| open_quantity := open_quantity e;
     open_cost_basis := open_cost_basis e + x |}.

(** The [defaultdict]: the value read under [k]; the dict after an access to
    [k] (the default entry is created when [k] is new); an in-place update
    of the entry under [k]. *)
Definition dd_read (k : string) (d : dict entry) : entry :=
  default entry_zero (dict_get k d).

Definition dd_touch (k : string) (d : dict entry) : dict entry :=
  dict_set k (dd_read k d) d.

Definition dd_update (k : string) (f : entry → entry) (d : dict entry)
  : dict entry :=
  dict_set k (f (dd_read k d)) d.

(** Body of the loop of [get_holdings]. *)
Definition holdings_step (holdings_data : dict entry) (t : Transaction)
  : result (dict entry) :=
  match transaction_type t with
  | BUY =>
      let d1 := dd_update (ticker t) (add_quantity (quantity t)) holdings_data in
      Ok (dd_update (ticker t) (add_cost (total_value t)) d1)
  | SELL =>
      let current_qty := open_quantity (dd_read (ticker t) holdings_data) in
      let d0 := dd_touch (ticker t) holdings_data in
      d1 ← (if decide (0 < current_qty) then
              avg_cost ← py_div (open_cost_basis (dd_read (ticker t) d0))
                                current_qty;
              Ok (dd_update (ticker t)
                    (add_cost (- (avg_cost * quantity t))) d0)
            else Ok d0);
      Ok (dd_update (ticker t) (add_quantity (- quantity t)) d1)
  | DIVIDEND => Ok holdings_data
  end.

(** Body of the conversion loop of [get_holdings]. *)
Definition holdings_collect (holdings : dict Holding) (item : string * entry)
  : result (dict Holding) :=
  let '(tk, data) := item in
  if decide (0 < open_quantity data) then
    avg ← (if decide (0 < open_quantity data)
           then py_div (open_cost_basis data) (open_quantity data)
           else Ok 0);
    Ok (dict_set tk (Holding_init tk (open_quantity data) avg) holdings)
  else Ok holdings.

(** [holdings_data] once the first loop of [get_holdings] has run over [l]. *)
Definition holdings_data_after (l : list Transaction) : result (dict entry) :=
  foldM holdings_step l [].

Definition get_holdings (self : Portfolio) : result (dict Holding) :=
  holdings_data ← holdings_data_after (transactions self);
  foldM holdings_collect holdings_data [].

(** Body of the loop of [get_realized_gains], on the pair
    [(realized_gains, holdings_tracker)]. *)
Definition gains_step (st : Qc * dict entry) (t : Transaction)
  : result (Qc * dict entry) :=
  let '(realized_gains, holdings_tracker) := st in
  let tk := ticker t in
  match transaction_type t with
  | BUY =>
      let d1 := dd_update tk (add_quantity (quantity t)) holdings_tracker in
      Ok (realized_gains, dd_update tk (add_cost (total_value t)) d1)
  | SELL =>
      let qty := open_quantity (dd_read tk holdings_tracker) in
      let d0 := dd_touch tk holdings_tracker in
      if decide (0 < qty) then
        avg_cost ← py_div (open_cost_basis (dd_read tk d0))
                          (open_quantity (dd_read tk d0));
        let cost_basis := avg_cost * quantity t in
        let sale_value := total_value t in
        let d1 := dd_update tk (add_quantity (- quantity t)) d0 in
        Ok (realized_gains + (sale_value - cost_basis),
            dd_update tk (add_cost (- cost_basis)) d1)
      else Ok (realized_gains, d0)
  | DIVIDEND => Ok (realized_gains, holdings_tracker)
  end.

(** [(realized_gains, holdings_tracker)] once the loop of
    [get_realized_gains] has run over [l]. *)
Definition holdings_tracker_after (l : list Transaction)
  : result (Qc * dict entry) :=
  foldM gains_step l (0, []).

Definition get_realized_gains (self : Portfolio) : result Qc :=
  fst <$> holdings_tracker_after (transactions self).

(** Every SELL of [l] meets a strictly positive quantity of its ticker in
    the holdings replay started from [d]. *)
Fixpoint sells_covered (d : dict entry) (l : list Transaction) : bool :=
  match l with
  | [] => true
  | t :: l' =>
      (if decide (transaction_type t = SELL)
       then bool_decide (0 < open_quantity (dd_read (ticker t) d))
       else true)
      && match holdings_step d t with
         | Ok d' => sells_covered d' l'
         | Raise _ => false
         end
  end.

(** [sum(...)]: left to right from [0]. *)
Definition py_sum (l : list Qc) : Qc := foldl Qcplus 0 l.

Definition get_dividend_income (self : Portfolio) : Qc :=
  py_sum (total_value <$>
            filter (λ t, transaction_type t = DIVIDEND) (transactions self)).

Definition get_transactions_by_ticker (self : Portfolio) (tk : string)
  : list Transaction :=
  filter (λ t, ticker t = str_upper tk) (transactions self).

Record Summary := {
  summary_name : pyval;
  total_holdings : nat;
  total_cost_basis : Qc;
  summary_realized_gains : Qc;
  summary_dividend_income : Qc;
  total_transactions : nat;
  summary_holdings : dict pyval
}.

Definition get_portfolio_summary (self : Portfolio) : result Summary :=
  holdings ← get_holdings self;
  let cost := py_sum (total_cost <$> dict_values holdings) in
  realized_gains ← get_realized_gains self;
  let dividend_income := get_dividend_income self in
  Ok {| summary_name := name self;
        total_holdings := length holdings;
        total_cost_basis := cost;
        summary_realized_gains := realized_gains;
        summary_dividend_income := dividend_income;
        total_transactions := length (transactions self);
        summary_holdings := dict_map Holding_to_dict holdings |}.

Definition Portfolio_to_dict (self : Portfolio) : pyval :=
  PDict [("name", name self);
         ("stocks", PDict (dict_map Stock_to_dict (stocks self)));
         ("transactions", PList (Transaction_to_dict <$> transactions self))].

Definition load_stock (acc : dict Stock) (item : string * pyval)
  : result (dict Stock) :=
  s ← Stock_from_dict item.2;
  Ok (dict_set item.1 s acc).

Definition load_transaction (now : datetime) (acc : list Transaction)
    (transaction_data : pyval) : result (list Transaction) :=
  t ← Transaction_from_dict now transaction_data;
  Ok (acc ++ [t]).

Definition Portfolio_from_dict (now : datetime) (data : pyval)
  : result Portfolio :=
  nm ← get_method data "name" (PStr "My Portfolio");
  sv ← get_method data "stocks" (PDict []);
  its ← items sv;
  sts ← foldM load_stock its [];
  tv ← get_method data "transactions" (PList []);
  tds ← py_iter tv;
  txs ← foldM (load_transaction now) tds [];
  Ok {| name := nm; transactions := txs; stocks := sts |}.

(** ** data_store.py *)

(** What is on disk at [portfolio.json]: nothing, text that [json.load]
    rejects with [JSONDecodeError], or text that it parses to a value.
    Failures of [open] and bytes that are not text are left out. *)
Inductive portfolio_file :=
| NoFile
| NotJson
| Json (v : pyval).

Definition json_load (f : portfolio_file) : result pyval :=
  match f with
  | Json v => Ok v
  | _ => Raise JSONDecodeError
  end.

Definition save_portfolio (p : Portfolio) : portfolio_file :=
  Json (Portfolio_to_dict p).

(** The [except (json.JSONDecodeError, KeyError)] clause. *)
Definition load_caught (e : exn) : bool :=
  match e with
  | JSONDecodeError | KeyError _ => true
  | _ => false
  end.

Definition load_portfolio (now : datetime) (f : portfolio_file)
  : result (option Portfolio) :=
  match f with
  | NoFile => Ok None
  | _ =>
      try_except
        (data ← json_load f; p ← Portfolio_from_dict now data; Ok (Some p))
        load_caught
        (λ _, Ok None)
  end.

(** [PortfolioCLI._load_or_create_portfolio]. *)
Definition load_or_create_portfolio (now : datetime) (f : portfolio_file)
  : result Portfolio :=
  portfolio ← load_portfolio now f;
  match portfolio with
  | Some p => Ok p
  | None => Ok (Portfolio_init (PStr "My Portfolio"))
  end.

(** ** Portfolios and snapshots the properties speak of *)

(** The portfolios a caller can build: created empty, then grown by
    [add_transaction] with transactions that [Transaction.__init__] returned
    and by [add_stock]. *)
Inductive built : Portfolio → Prop :=
| built_init (nm : pyval) : built (Portfolio_init nm)
| built_add_transaction (self : Portfolio) (now : datetime) (tk : pyval)
    (kind : TransactionType) (qty prc : pyval) (dt : option datetime)
    (tid : pyval) (t : Transaction) :
    built self →
    Transaction_init now tk kind qty prc dt tid = Ok t →
    built (add_transaction self t)
| built_add_stock (self : Portfolio) (s : Stock) :
    built self → built (add_stock self s).

(** What the constructor establishes and the snapshot relies on: the ticker
    is in upper case and the identifier is not empty. *)
Definition constructed (t : Transaction) : Prop :=
  str_upper (ticker t) = ticker t ∧ truthy (transaction_id t) = true.

(** A transaction record without its [total_value] field. *)
Definition drop_total_value (transaction_data : pyval) : pyval :=
  match transaction_data with
  | PDict d => PDict (filter (λ kv, kv.1 ≠ "total_value") d)
  | v => v
  end.

Definition drop_in_list (v : pyval) : pyval :=
  match v with
  | PList l => PList (map drop_total_value l)
  | v => v
  end.

(** A snapshot without the [total_value] fields of its transaction records:
    two snapshots differ in these fields only when they are equal without
    them. *)
Definition drop_total_values (snapshot : pyval) : pyval :=
  match snapshot with
  | PDict d =>
      PDict (map (λ kv, if decide (kv.1 = "transactions")
                        then (kv.1, drop_in_list kv.2) else kv) d)
  | v => v
  end.

(** ** The rest of data_store.py *)

Definition portfolio_exists (f : portfolio_file) : bool :=
  match f with
  | NoFile => false
  | _ => true
  end.

Definition clear_portfolio (f : portfolio_file) : portfolio_file := NoFile.

(** ** cli.py: the operations that change the ledger

    The state of a [PortfolioCLI] is its portfolio and the file of its data
    store. What the user types comes in as arguments: [get_user_input] has
    already stripped the ticker and converted the numbers. Printing is left
    out; what is printed on a refusal is kept as the reply. *)

Record PortfolioCLI := {
  cli_portfolio : Portfolio;
  cli_file : portfolio_file
}.

Inductive cli_reply :=
| Added
| NotPositive
| NoHoldings
| NotEnoughShares.

(** [PortfolioCLI.__init__]. *)
Definition PortfolioCLI_init (now : datetime) (f : portfolio_file)
  : result PortfolioCLI :=
  p ← load_or_create_portfolio now f;
  Ok {| cli_portfolio := p; cli_file := f |}.

(** [_save_portfolio]. *)
Definition cli_save (self : PortfolioCLI) : PortfolioCLI :=
  {| cli_portfolio := cli_portfolio self;
     cli_file := save_portfolio (cli_portfolio self) |}.

Definition cli_with (self : PortfolioCLI) (p : Portfolio) : PortfolioCLI :=
  {| cli_portfolio := p; cli_file := cli_file self |}.

(** The optional company name: [None] when the user just pressed Enter. *)
Definition py_optional (o : option string) : pyval :=
  match o with
  | Some s => PStr s
  | None => PNone
  end.

Definition cli_add_buy_transaction (now : datetime) (self : PortfolioCLI)
    (tk : string) (qty prc : Qc) (stock_name : option string)
  : result (cli_reply * PortfolioCLI) :=
  if decide (qty ≤ 0 ∨ prc ≤ 0) then Ok (NotPositive, self)
  else
    p1 ← match dict_get (str_upper tk) (stocks (cli_portfolio self)) with
         | Some _ => Ok (cli_portfolio self)
         | None =>
             s ← Stock_init (PStr tk) (py_or (py_optional stock_name) (PStr tk));
             Ok (add_stock (cli_portfolio self) s)
         end;
    t ← Transaction_init now (PStr tk) BUY (PNum qty) (PNum prc) None PNone;
    Ok (Added, cli_save (cli_with self (add_transaction p1 t))).

Definition cli_add_sell_transaction (now : datetime) (self : PortfolioCLI)
    (tk : string) (qty prc : Qc)
  : result (cli_reply * PortfolioCLI) :=
  holdings ← get_holdings (cli_portfolio self);
  match dict_get (str_upper tk) holdings with
  | None => Ok (NoHoldings, self)
  | Some current_holding =>
      if decide (qty ≤ 0 ∨ prc ≤ 0) then Ok (NotPositive, self)
      else if decide (holding_quantity current_holding < qty)
      then Ok (NotEnoughShares, self)
      else
        t ← Transaction_init now (PStr tk) SELL (PNum qty) (PNum prc)
              None PNone;
        Ok (Added,
            cli_save (cli_with self (add_transaction (cli_portfolio self) t)))
  end.

Definition cli_add_dividend_income (now : datetime) (self : PortfolioCLI)
    (tk : string) (amount : Qc)
  : result (cli_reply * PortfolioCLI) :=
  if decide (amount ≤ 0) then Ok (NotPositive, self)
  else
    t ← Transaction_init now (PStr tk) DIVIDEND (PNum 1) (PNum amount)
          None PNone;
    Ok (Added,
        cli_save (cli_with self (add_transaction (cli_portfolio self) t))).

(** ** Notions the further properties speak of *)

(** The states a CLI session goes through when it starts without a data
    file: every operation that returns, whatever its reply. *)
Inductive cli_reachable : PortfolioCLI → Prop :=
| cli_start (now : datetime) (c : PortfolioCLI) :
    PortfolioCLI_init now NoFile = Ok c → cli_reachable c
| cli_buy (now : datetime) (c c' : PortfolioCLI) (tk : string) (qty prc : Qc)
    (stock_name : option string) (r : cli_reply) :
    cli_reachable c →
    cli_add_buy_transaction now c tk qty prc stock_name = Ok (r, c') →
    cli_reachable c'
| cli_sell (now : datetime) (c c' : PortfolioCLI) (tk : string) (qty prc : Qc)
    (r : cli_reply) :
    cli_reachable c →
    cli_add_sell_transaction now c tk qty prc = Ok (r, c') →
    cli_reachable c'
| cli_dividend (now : datetime) (c c' : PortfolioCLI) (tk : string)
    (amount : Qc) (r : cli_reply) :
    cli_reachable c →
    cli_add_dividend_income now c tk amount = Ok (r, c') →
    cli_reachable c'.

(** The portfolios built with the two constructors: as [built], with every
    registered stock returned by [Stock.__init__]. *)
Inductive constructor_built : Portfolio → Prop :=
| cbuilt_init (nm : pyval) : constructor_built (Portfolio_init nm)
| cbuilt_add_transaction (self : Portfolio) (now : datetime) (tk : pyval)
    (kind : TransactionType) (qty prc : pyval) (dt : option datetime)
    (tid : pyval) (t : Transaction) :
    constructor_built self →
    Transaction_init now tk kind qty prc dt tid = Ok t →
    constructor_built (add_transaction self t)
| cbuilt_add_stock (self : Portfolio) (tk nm : pyval) (s : Stock) :
    constructor_built self →
    Stock_init tk nm = Ok s →
    constructor_built (add_stock self s).

(** What [Stock.__init__] establishes: an upper-case ticker, and a name that
    [name or ticker] leaves alone. *)
Definition stock_constructed (s : Stock) : Prop :=
  str_upper (stock_ticker s) = stock_ticker s ∧
  py_or (stock_name s) (PStr (stock_ticker s)) = stock_name s.

(** A portfolio as the constructors and the loader leave it. *)
Definition normal (p : Portfolio) : Prop :=
  Forall constructed (transactions p) ∧
  NoDup (dict_keys (stocks p)) ∧
  Forall (λ kv, stock_constructed kv.2) (stocks p).

(** Every BUY of [l] has a positive quantity and every SELL a positive
    quantity that is at most the quantity its ticker has in the holdings
    replay started from [d]: what the CLI checks before it appends. *)
Fixpoint within_holdings (d : dict entry) (l : list Transaction) : bool :=
  match l with
  | [] => true
  | t :: l' =>
      match transaction_type t with
      | BUY => bool_decide (0 < quantity t)
      | SELL =>
          bool_decide (0 < quantity t) &&
          bool_decide (quantity t ≤ open_quantity (dd_read (ticker t) d))
      | DIVIDEND => true
      end
      && match holdings_step d t with
         | Ok d' => within_holdings d' l'
         | Raise _ => false
         end
  end.

(** The holdings that the conversion loop of [get_holdings] makes of a
    replay state: the entries with a positive quantity, in their order. *)
Definition positive_holding (item : string * entry)
  : option (string * Holding) :=
  if decide (0 < open_quantity item.2)
  then Some (item.1,
             Holding_init item.1 (open_quantity item.2)
               (open_cost_basis item.2 / open_quantity item.2))
  else None.

Definition positive_holdings (d : dict entry) : dict Holding :=
  omap positive_holding d.

(** An entry that holds no negative quantity. *)
Definition not_negative (e : entry) : Prop := ¬ open_quantity e < 0.

(** What a CLI session keeps true of its state. *)
Definition cli_invariant (c : PortfolioCLI) : Prop :=
  constructor_built (cli_portfolio c) ∧
  within_holdings [] (transactions (cli_portfolio c)) = true ∧
  Forall (λ t, 0 < quantity t ∧ 0 < price t) (transactions (cli_portfolio c)) ∧
  (cli_file c = NoFile ∧ cli_portfolio c = Portfolio_init (PStr "My Portfolio")
   ∨ cli_file c = save_portfolio (cli_portfolio c)).

End Definitions.

(** ** A concrete standard library for the examples

    Dates are kept as text; the ISO form of a date is the text behind a
    ["T"], so that some strings are not dates. *)

Definition text_fromisoformat (s : string) : option string :=
  match s with
  | String "T" d => Some d
  | _ => None
  end.

Definition text_lib : PyLib :=
  {| datetime := string;
     isoformat := String "T";
     fromisoformat := text_fromisoformat;
     strftime_compact := id;
     float_of_str := λ _, None;
     fromisoformat_isoformat := λ d, eq_refl |}.

(** Rationals from integers, for the examples. *)
Definition num (z : Z) : Qc := Q2Qc (inject_Z z).

Section Samples.
#[local] Existing Instance text_lib.

Definition jan15 : @datetime text_lib := "2024-01-15".
Definition feb1 : @datetime text_lib := "2024-02-01".

Definition tx (tk : string) (kind : TransactionType) (q p : Z) : Transaction :=
  {| ticker := tk;
     transaction_type := kind;
     quantity := num q;
     price := num p;
     date := jan15;
     transaction_id := PStr (tk +:+ "_20240115") |}.

Definition ledger (l : list Transaction) : Portfolio :=
  foldl add_transaction (Portfolio_init (PStr "Test Portfolio")) l.

(** A transaction record as [Transaction.to_dict] writes it, with the given
    type and date strings and stored [total_value]. *)
Definition record (kind dt : string) (q p v : Z) : pyval :=
  PDict [("transaction_id", PStr "AAPL_20240115");
         ("ticker", PStr "AAPL");
         ("transaction_type", PStr kind);
         ("quantity", PNum (num q));
         ("price", PNum (num p));
         ("date", PStr dt);
         ("total_value", PNum (num v))].

Definition snapshot (records : list pyval) : pyval :=
  PDict [("name", PStr "Test Portfolio");
         ("stocks",
          PDict [("AAPL", PDict [("ticker", PStr "AAPL");
                                 ("name", PStr "Apple Inc.")])]);
         ("transactions", PList records)].

(** A CLI session: started without a file, then a BUY of 10 AAPL at 150
    typed in lower case with a company name, then a SELL of 4 at 160. *)
Definition cli0 : PortfolioCLI :=
  {| cli_portfolio := Portfolio_init (PStr "My Portfolio");
     cli_file := NoFile |}.

Definition cli_tx (kind : TransactionType) (q p : Z) : Transaction :=
  {| ticker := "AAPL";
     transaction_type := kind;
     quantity := num q;
     price := num p;
     date := jan15;
     transaction_id := PStr (Transaction_generate_id "AAPL" jan15) |}.

Definition cli1 : PortfolioCLI :=
  cli_save
    (cli_with cli0
       (add_transaction
          (add_stock (cli_portfolio cli0) (Stock_new "aapl" (PStr "Apple Inc.")))
          (cli_tx BUY 10 150))).

Definition cli2 : PortfolioCLI :=
  cli_save
    (cli_with cli1 (add_transaction (cli_portfolio cli1) (cli_tx SELL 4 160))).

End Samples.

(** * Properties *)

(** ** The error monad and the loops *)

Lemma bind_Ok {A B : Type} (a : A) (f : A → result B) : Ok a ≫= f = f a.
Proof. reflexivity. Qed.

Lemma foldM_cons {A B : Type} (f : B → A → result B) (x : A) (l : list A)
    (b : B) :
  foldM f (x :: l) b = f b x ≫= foldM f l.
Proof. reflexivity. Qed.

Lemma foldM_app {A B : Type} (f : B → A → result B) (l1 l2 : list A) (b : B) :
  foldM f (l1 ++ l2) b = foldM f l1 b ≫= foldM f l2.
Proof.
  revert b. induction l1 as [|x l1 IH]; intros b; simpl; [done|].
  destruct (f b x) as [b'|e]; simpl; [apply IH | done].
Qed.

Lemma foldM_snoc {A B : Type} (f : B → A → result B) (l : list A) (x : A)
    (b : B) :
  foldM f (l ++ [x]) b = foldM f l b ≫= (λ b', f b' x).
Proof.
  rewrite foldM_app. destruct (foldM f l b) as [b'|e]; simpl; [|done].
  by destruct (f b' x).
Qed.

Lemma foldM_total {A B : Type} (f : B → A → result B) :
  (∀ b a, ∃ b', f b a = Ok b') → ∀ l b, ∃ b', foldM f l b = Ok b'.
Proof.
  intros Hf l. induction l as [|x l IH]; intros b; simpl; [by eexists|].
  destruct (Hf b x) as [b' ->]. simpl. apply IH.
Qed.

(** ** Dictionaries *)

Lemma dict_get_set_eq {V : Type} (k : string) (v : V) (d : dict V) :
  dict_get k (dict_set k v d) = Some v.
Proof.
  induction d as [|[k' v'] d IH]; simpl.
  - by rewrite decide_True.
  - destruct (decide (k' = k)) as [->|Hne]; simpl.
    + by rewrite decide_True.
    + by rewrite decide_False.
Qed.

Lemma dict_get_set_ne {V : Type} (k k' : string) (v : V) (d : dict V) :
  k ≠ k' → dict_get k' (dict_set k v d) = dict_get k' d.
Proof.
  intros Hne. induction d as [|[k0 v0] d IH]; simpl.
  - by rewrite decide_False.
  - destruct (decide (k0 = k)) as [->|Hne0]; simpl.
    + by rewrite !decide_False.
    + by rewrite IH.
Qed.

Lemma dict_set_set {V : Type} (k : string) (v w : V) (d : dict V) :
  dict_set k w (dict_set k v d) = dict_set k w d.
Proof.
  induction d as [|[k' v'] d IH]; simpl.
  - by rewrite decide_True.
  - destruct (decide (k' = k)) as [->|Hne]; simpl.
    + by rewrite decide_True.
    + by rewrite decide_False, IH.
Qed.

Lemma dict_set_id {V : Type} (k : string) (v : V) (d : dict V) :
  dict_get k d = Some v → dict_set k v d = d.
Proof.
  induction d as [|[k' v'] d IH]; simpl; [done|].
  destruct (decide (k' = k)) as [->|Hne]; [by intros [= ->]|].
  intros Hd. by rewrite IH.
Qed.

Lemma dd_read_set_eq (k : string) (e : entry) (d : dict entry) :
  dd_read k (dict_set k e d) = e.
Proof. unfold dd_read. by rewrite dict_get_set_eq. Qed.

Lemma dd_read_set_ne (k k' : string) (e : entry) (d : dict entry) :
  k ≠ k' → dd_read k' (dict_set k e d) = dd_read k' d.
Proof. intros. unfold dd_read. by rewrite dict_get_set_ne. Qed.

(** An access creates at most a default entry: what is read is unchanged. *)
Lemma dd_read_touch (k k' : string) (d : dict entry) :
  dd_read k' (dd_touch k d) = dd_read k' d.
Proof.
  unfold dd_touch. destruct (decide (k = k')) as [->|Hne].
  - apply dd_read_set_eq.
  - by apply dd_read_set_ne.
Qed.

Lemma dd_touch_present (k : string) (e : entry) (d : dict entry) :
  dict_get k d = Some e → dd_touch k d = d.
Proof.
  intros Hd. unfold dd_touch, dd_read. rewrite Hd. by apply dict_set_id.
Qed.

Lemma dd_update_update (k : string) (f g : entry → entry) (d : dict entry) :
  dd_update k f (dd_update k g d) = dict_set k (f (g (dd_read k d))) d.
Proof. unfold dd_update. by rewrite dd_read_set_eq, dict_set_set. Qed.

Lemma dd_update_touch (k : string) (f : entry → entry) (d : dict entry) :
  dd_update k f (dd_touch k d) = dict_set k (f (dd_read k d)) d.
Proof.
  unfold dd_update. rewrite dd_read_touch. unfold dd_touch.
  by rewrite dict_set_set.
Qed.

(** ** Division and order *)

Lemma Qcopp_neg (q : Qc) : 0 < q → - q < 0.
Proof.
  intros Hq. apply Qclt_minus_iff. by replace (0 + - - q) with q by ring.
Qed.

Lemma py_div_pos (x y : Qc) : 0 < y → py_div x y = Ok (x / y).
Proof.
  intros Hy. unfold py_div. rewrite decide_False; [done|].
  intros ->. by apply (irreflexivity Qclt) in Hy.
Qed.

Section Properties.
Context `{PyLib}.

(** ** The two replays step by step *)

(** A SELL met with a positive quantity, in the holdings pass. *)
Lemma holdings_step_sell_pos (d : dict entry) (t : Transaction) :
  transaction_type t = SELL →
  0 < open_quantity (dd_read (ticker t) d) →
  let e := dd_read (ticker t) d in
  let cost_basis := open_cost_basis e / open_quantity e * quantity t in
  holdings_step d t =
    Ok (dict_set (ticker t)
          {| open_quantity := open_quantity e + - quantity t;
             open_cost_basis := open_cost_basis e + - cost_basis |} d).
Proof.
  intros Hk Hq e cost_basis. unfold holdings_step. rewrite Hk.
  rewrite decide_True by done. rewrite py_div_pos by done. simpl.
  rewrite dd_update_touch. unfold dd_update.
  rewrite dd_read_set_eq, dict_set_set.
  rewrite dd_read_touch. done.
Qed.

(** A SELL met with no positive quantity, in the holdings pass: the quantity
    still goes down, the cost basis stays. *)
Lemma holdings_step_sell_nonpos (d : dict entry) (t : Transaction) :
  transaction_type t = SELL →
  ¬ 0 < open_quantity (dd_read (ticker t) d) →
  holdings_step d t =
    Ok (dict_set (ticker t)
          (add_quantity (- quantity t) (dd_read (ticker t) d)) d).
Proof.
  intros Hk Hq. unfold holdings_step. rewrite Hk.
  rewrite decide_False by done. simpl. by rewrite dd_update_touch.
Qed.

Lemma holdings_step_buy (d : dict entry) (t : Transaction) :
  transaction_type t = BUY →
  let e := dd_read (ticker t) d in
  holdings_step d t =
    Ok (dict_set (ticker t)
          {| open_quantity := open_quantity e + quantity t;
             open_cost_basis := open_cost_basis e + total_value t |} d).
Proof.
  intros Hk e. unfold holdings_step. rewrite Hk.
  by rewrite dd_update_update.
Qed.

Lemma gains_step_buy (rg : Qc) (d : dict entry) (t : Transaction) :
  transaction_type t = BUY →
  let e := dd_read (ticker t) d in
  gains_step (rg, d) t =
    Ok (rg, dict_set (ticker t)
              {| open_quantity := open_quantity e + quantity t;
                 open_cost_basis := open_cost_basis e + total_value t |} d).
Proof.
  intros Hk e. unfold gains_step. rewrite Hk.
  by rewrite dd_update_update.
Qed.

(** A SELL met with a positive quantity, in the realized-gains pass. *)
Lemma gains_step_sell_pos (rg : Qc) (d : dict entry) (t : Transaction) :
  transaction_type t = SELL →
  0 < open_quantity (dd_read (ticker t) d) →
  let e := dd_read (ticker t) d in
  let cost_basis := open_cost_basis e / open_quantity e * quantity t in
  gains_step (rg, d) t =
    Ok (rg + (total_value t - cost_basis),
        dict_set (ticker t)
          {| open_quantity := open_quantity e + - quantity t;
             open_cost_basis := open_cost_basis e + - cost_basis |} d).
Proof.
  intros Hk Hq e cost_basis. unfold gains_step. rewrite Hk.
  rewrite decide_True by done. rewrite dd_read_touch.
  rewrite py_div_pos by done. simpl.
  rewrite dd_update_touch. unfold dd_update.
  rewrite dd_read_set_eq, dict_set_set.
  done.
Qed.

(** A SELL met with no positive quantity, in the realized-gains pass: only
    the access to the tracker is left. *)
Lemma gains_step_sell_nonpos (rg : Qc) (d : dict entry) (t : Transaction) :
  transaction_type t = SELL →
  ¬ 0 < open_quantity (dd_read (ticker t) d) →
  gains_step (rg, d) t = Ok (rg, dd_touch (ticker t) d).
Proof.
  intros Hk Hq. unfold gains_step. rewrite Hk. by rewrite decide_False.
Qed.

Lemma holdings_step_total (d : dict entry) (t : Transaction) :
  ∃ d', holdings_step d t = Ok d'.
Proof.
  destruct (transaction_type t) eqn:Hk.
  - eexists. by apply holdings_step_buy.
  - destruct (decide (0 < open_quantity (dd_read (ticker t) d))).
    + eexists. by apply holdings_step_sell_pos.
    + eexists. by apply holdings_step_sell_nonpos.
  - eexists. unfold holdings_step. by rewrite Hk.
Qed.

Lemma gains_step_total (st : Qc * dict entry) (t : Transaction) :
  ∃ st', gains_step st t = Ok st'.
Proof.
  destruct st as [rg d]. destruct (transaction_type t) eqn:Hk.
  - eexists. by apply gains_step_buy.
  - destruct (decide (0 < open_quantity (dd_read (ticker t) d))).
    + eexists. by apply gains_step_sell_pos.
    + eexists. by apply gains_step_sell_nonpos.
  - eexists. unfold gains_step. by rewrite Hk.
Qed.

Lemma holdings_collect_total (hs : dict Holding) (item : string * entry) :
  ∃ hs', holdings_collect hs item = Ok hs'.
Proof.
  destruct item as [tk data]. unfold holdings_collect.
  destruct (decide (0 < open_quantity data)) as [Hq|Hq]; [|by eexists].
  rewrite py_div_pos by done. by eexists.
Qed.

Lemma holdings_collect_pos (hs : dict Holding) (tk : string) (data : entry) :
  0 < open_quantity data →
  holdings_collect hs (tk, data) =
    Ok (dict_set tk
          (Holding_init tk (open_quantity data)
             (open_cost_basis data / open_quantity data)) hs).
Proof.
  intros Hq. unfold holdings_collect. rewrite !decide_True by done.
  by rewrite py_div_pos.
Qed.

Lemma holdings_data_after_snoc (l : list Transaction) (t : Transaction) :
  holdings_data_after (l ++ [t])
    = holdings_data_after l ≫= (λ d, holdings_step d t).
Proof. apply foldM_snoc. Qed.

Lemma holdings_tracker_after_snoc (l : list Transaction) (t : Transaction) :
  holdings_tracker_after (l ++ [t])
    = holdings_tracker_after l ≫= (λ st, gains_step st t).
Proof. apply foldM_snoc. Qed.

Lemma transactions_add (self : Portfolio) (t : Transaction) :
  transactions (add_transaction self t) = transactions self ++ [t].
Proof. reflexivity. Qed.

Lemma bind_Ok_r {A : Type} (m : result A) : m ≫= Ok = m.
Proof. by destruct m. Qed.


(** ** Totality of the ledger queries *)

(** C7. Every ledger query returns for every transaction list: the holdings
    view, the realized gains and the summary never raise (the dividend
    income is a total function by its type). In particular no division of
    the replay is by zero, since [py_div] raises there: each one sits under
    a test that the quantity is strictly positive. *)
Theorem ledger_queries_total (self : Portfolio) :
  (∃ hs, get_holdings self = Ok hs) ∧
  (∃ g, get_realized_gains self = Ok g) ∧
  (∃ d, get_dividend_income self = d) ∧
  (∃ s, get_portfolio_summary self = Ok s).
Proof.
  assert (Hh : ∃ hs, get_holdings self = Ok hs).
  { unfold get_holdings, holdings_data_after.
    destruct (foldM_total holdings_step holdings_step_total
                (transactions self) []) as [d ->]. simpl.
    apply foldM_total, holdings_collect_total. }
  assert (Hg : ∃ g, get_realized_gains self = Ok g).
  { unfold get_realized_gains, holdings_tracker_after.
    destruct (foldM_total gains_step gains_step_total
                (transactions self) (0, [])) as [st ->]. by eexists. }
  repeat split; [done | done | by eexists |].
  unfold get_portfolio_summary.
  destruct Hh as [hs ->], Hg as [g ->]. by eexists.
Qed.

(** ** Dividends *)


(** ** A SELL that meets no positive quantity *)

(** C10. In the loop of [get_realized_gains], a SELL whose ticker has a zero
    or negative tracked quantity does nothing: the running total of realized
    gains is unchanged, and so are the tracked quantity and cost basis of
    every ticker. *)
Theorem gains_sell_without_quantity_is_noop
    (realized_gains : Qc) (holdings_tracker : dict entry) (t : Transaction) :
  transaction_type t = SELL →
  open_quantity (dd_read (ticker t) holdings_tracker) ≤ 0 →
  ∃ tracker',
    gains_step (realized_gains, holdings_tracker) t
      = Ok (realized_gains, tracker') ∧
    ∀ k, dd_read k tracker' = dd_read k holdings_tracker.
Proof.
  intros Hk Hq. exists (dd_touch (ticker t) holdings_tracker). split.
  - apply gains_step_sell_nonpos; [done|]. by apply Qcle_not_lt.
  - intros k. apply dd_read_touch.
Qed.

(** C1, as the code has it. When a SELL [s] arrives and the realized-gains
    tracker holds quantity 0 for its ticker, [get_realized_gains] books
    nothing for the sale: its result is the one before the sale. When the
    holdings replay holds quantity 0 for the ticker, that replay still takes
    the sold quantity off, with no cost removed: the quantity becomes
    [- quantity s], below zero for a positive sale. *)
Theorem sell_at_zero_quantity
    (self : Portfolio) (s : Transaction) (hd : dict entry) (rg : Qc)
    (tr : dict entry) :
  transaction_type s = SELL →
  holdings_data_after (transactions self) = Ok hd →
  holdings_tracker_after (transactions self) = Ok (rg, tr) →
  (open_quantity (dd_read (ticker s) tr) = 0 →
   get_realized_gains self = Ok rg ∧
   get_realized_gains (add_transaction self s) = Ok rg) ∧
  (open_quantity (dd_read (ticker s) hd) = 0 →
   ∃ hd',
     holdings_data_after (transactions (add_transaction self s)) = Ok hd' ∧
     open_quantity (dd_read (ticker s) hd') = - quantity s ∧
     open_cost_basis (dd_read (ticker s) hd')
       = open_cost_basis (dd_read (ticker s) hd) ∧
     (0 < quantity s → open_quantity (dd_read (ticker s) hd') < 0)).
Proof.
  intros Hk Hhd Htr. split.
  - intros Hq. unfold get_realized_gains. rewrite Htr. split; [done|].
    rewrite transactions_add, holdings_tracker_after_snoc, Htr, bind_Ok.
    rewrite gains_step_sell_nonpos; [done | done |].
    rewrite Hq. apply (irreflexivity Qclt).
  - intros Hq.
    rewrite transactions_add, holdings_data_after_snoc, Hhd, bind_Ok.
    rewrite holdings_step_sell_nonpos;
      [| done | rewrite Hq; apply (irreflexivity Qclt)].
    eexists. split; [done|]. rewrite dd_read_set_eq. simpl.
    rewrite Hq. repeat split.
    + ring.
    + intros Hpos. rewrite Qcplus_0_l. by apply Qcopp_neg.
Qed.

(** ** Agreement of the two replays *)

Lemma replays_step_agree (rg : Qc) (d : dict entry) (t : Transaction) :
  (transaction_type t = SELL → 0 < open_quantity (dd_read (ticker t) d)) →
  ∃ rg' d', holdings_step d t = Ok d' ∧ gains_step (rg, d) t = Ok (rg', d').
Proof.
  intros Hq. destruct (transaction_type t) eqn:Hk.
  - do 2 eexists. split; [by apply holdings_step_buy|by apply gains_step_buy].
  - do 2 eexists.
    split; [by apply holdings_step_sell_pos; auto
           |by apply gains_step_sell_pos; auto].
  - do 2 eexists. unfold holdings_step, gains_step. by rewrite Hk.
Qed.

Lemma sells_covered_agree (l : list Transaction) :
  ∀ (rg : Qc) (d : dict entry),
    sells_covered d l = true →
    ∃ rg' d',
      foldM holdings_step l d = Ok d' ∧
      foldM gains_step l (rg, d) = Ok (rg', d').
Proof.
  induction l as [|t l IH]; intros rg d Hc; [by do 2 eexists|].
  simpl in Hc. apply andb_prop in Hc as [Hsell Hrest].
  destruct (replays_step_agree rg d t) as (rg1 & d1 & Hh & Hg).
  { intros Hk. rewrite decide_True in Hsell by done.
    by apply bool_decide_eq_true in Hsell. }
  rewrite Hh in Hrest. rewrite !foldM_cons, Hh, Hg, !bind_Ok. by apply IH.
Qed.




(** ** BUY-only ledgers *)

(** The holdings replay over BUYs of one ticker adds the quantities and the
    values, one after the other, onto what the ticker holds. *)
Lemma holdings_replay_buys (T : string) (l : list Transaction) :
  ∀ (t : Transaction) (d : dict entry),
    Forall (λ t, transaction_type t = BUY ∧ ticker t = T) (t :: l) →
    foldM holdings_step (t :: l) d =
      Ok (dict_set T
            {| open_quantity :=
                 foldl Qcplus (open_quantity (dd_read T d))
                   (quantity <$> t :: l);
               open_cost_basis :=
                 foldl Qcplus (open_cost_basis (dd_read T d))
                   (total_value <$> t :: l) |} d).
Proof.
  induction l as [|t' l IH]; intros t d Hall.
  - apply Forall_cons_1 in Hall as [[Hk <-] _].
    by rewrite foldM_cons, holdings_step_buy.
  - apply Forall_cons_1 in Hall as [[Hk <-] Hall].
    rewrite foldM_cons, holdings_step_buy, bind_Ok by done.
    rewrite IH by done. by rewrite dd_read_set_eq, dict_set_set.
Qed.

Lemma get_holdings_buys (self : Portfolio) (T : string) :
  Forall (λ t, transaction_type t = BUY ∧ ticker t = T) (transactions self) →
  0 < foldl Qcplus 0 (quantity <$> transactions self) →
  get_holdings self =
    Ok [(T, Holding_init T
              (foldl Qcplus 0 (quantity <$> transactions self))
              (foldl Qcplus 0 (total_value <$> transactions self)
               / foldl Qcplus 0 (quantity <$> transactions self)))].
Proof.
  intros Hall Hpos. unfold get_holdings, holdings_data_after.
  destruct (transactions self) as [|t l].
  { by apply (irreflexivity Qclt) in Hpos. }
  rewrite holdings_replay_buys with (T := T) by done. rewrite bind_Ok.
  change (dd_read T []) with entry_zero.
  cbn [entry_zero open_quantity open_cost_basis dict_set].
  by rewrite foldM_cons, holdings_collect_pos.
Qed.

Lemma get_holdings_buys_none (self : Portfolio) (T : string) :
  Forall (λ t, transaction_type t = BUY ∧ ticker t = T) (transactions self) →
  ¬ 0 < foldl Qcplus 0 (quantity <$> transactions self) →
  get_holdings self = Ok [].
Proof.
  intros Hall Hpos. unfold get_holdings, holdings_data_after.
  destruct (transactions self) as [|t l]; [done|].
  rewrite holdings_replay_buys with (T := T) by done. rewrite bind_Ok.
  change (dd_read T []) with entry_zero.
  cbn [entry_zero open_quantity open_cost_basis dict_set].
  rewrite foldM_cons. unfold holdings_collect. cbn [open_quantity snd].
  by rewrite decide_False.
Qed.

(** C6, as the code has it. On a ledger of BUY transactions on one ticker
    [T], [get_holdings] depends on the total of the quantities, added up
    from 0 in ledger order as the loop does. When the total is strictly
    positive it reports [T] alone, with that total as quantity and, as
    average cost, the [quantity * price] added up in ledger order, divided
    by the total; otherwise it reports nothing. *)
Theorem buys_holding_in_ledger_order (self : Portfolio) (T : string) :
  Forall (λ t, transaction_type t = BUY ∧ ticker t = T) (transactions self) →
  let total_quantity := foldl Qcplus 0 (quantity <$> transactions self) in
  let total_paid :=
    foldl Qcplus 0 ((λ t, quantity t * price t) <$> transactions self) in
  get_holdings self =
    if decide (0 < total_quantity)
    then Ok [(T, Holding_init T total_quantity (total_paid / total_quantity))]
    else Ok [].
Proof.
  intros Hall total_quantity total_paid.
  destruct (decide (0 < total_quantity)) as [Hpos|Hpos].
  - by apply get_holdings_buys.
  - by apply (get_holdings_buys_none self T).
Qed.

(** ** Construction of a transaction *)

(** C2, as the code has it. [Transaction.__init__] checks neither the
    quantity nor the price: with a string ticker and numbers of any sign it
    returns a transaction that carries them as given; in particular it
    returns one for every positive quantity and price. *)
Theorem Transaction_init_accepts_all_numbers
    (now : datetime) (tk : string) (kind : TransactionType) (q p : Qc)
    (dt : option datetime) (tid : pyval) :
  ∃ t, Transaction_init now (PStr tk) kind (PNum q) (PNum p) dt tid = Ok t ∧
       ticker t = str_upper tk ∧ transaction_type t = kind ∧
       quantity t = q ∧ price t = p.
Proof. eexists. split; [reflexivity|]. by repeat split. Qed.

(** ** Snapshots *)

Lemma ascii_upper_idemp (c : ascii) :
  ascii_upper (ascii_upper c) = ascii_upper c.
Proof. by destruct c as [[] [] [] [] [] [] [] []]. Qed.

Lemma str_upper_idemp (s : string) : str_upper (str_upper s) = str_upper s.
Proof.
  induction s as [|c s IH]; simpl; [done|].
  by rewrite ascii_upper_idemp, IH.
Qed.

Lemma generated_id_truthy (tk : string) (d : datetime) :
  truthy (PStr (Transaction_generate_id tk d)) = true.
Proof. unfold Transaction_generate_id. by destruct tk. Qed.

Lemma py_or_truthy (v w : pyval) : truthy w = true → truthy (py_or v w) = true.
Proof. intros Hw. unfold py_or. by destruct (truthy v) eqn:Hv. Qed.

Lemma py_or_id (v w : pyval) : truthy v = true → py_or v w = v.
Proof. intros Hv. unfold py_or. by rewrite Hv. Qed.

Lemma Transaction_init_constructed
    (now : datetime) (tk : pyval) (kind : TransactionType) (qty prc : pyval)
    (dt : option datetime) (tid : pyval) (t : Transaction) :
  Transaction_init now tk kind qty prc dt tid = Ok t → constructed t.
Proof.
  unfold Transaction_init. destruct tk as [| | |s| |]; try done. simpl.
  destruct (py_float qty) as [q|]; [simpl|done].
  destruct (py_float prc) as [p|]; [simpl|done].
  intros [= <-]. split; simpl.
  - apply str_upper_idemp.
  - apply py_or_truthy, generated_id_truthy.
Qed.

Lemma built_constructed (self : Portfolio) :
  built self → Forall constructed (transactions self).
Proof.
  induction 1 as [nm|self now tk kind qty prc dt tid t _ IH Ht|self s _ IH];
    simpl; [done | | done].
  apply Forall_app. split; [done|].
  apply Forall_singleton. by eapply Transaction_init_constructed.
Qed.

Lemma TransactionType_of_value_value (k : TransactionType) :
  TransactionType_of_value (PStr (TransactionType_value k)) = Ok k.
Proof. by destruct k. Qed.

Lemma Transaction_to_dict_getitem (t : Transaction) :
  getitem (Transaction_to_dict t) "ticker" = Ok (PStr (ticker t)) ∧
  getitem (Transaction_to_dict t) "transaction_type"
    = Ok (PStr (TransactionType_value (transaction_type t))) ∧
  getitem (Transaction_to_dict t) "quantity" = Ok (PNum (quantity t)) ∧
  getitem (Transaction_to_dict t) "price" = Ok (PNum (price t)) ∧
  getitem (Transaction_to_dict t) "date" = Ok (PStr (isoformat (date t))).
Proof. by repeat split. Qed.

Lemma Transaction_to_dict_get_id (t : Transaction) :
  get_method (Transaction_to_dict t) "transaction_id" PNone
    = Ok (transaction_id t).
Proof. reflexivity. Qed.

(** Reading back what [to_dict] wrote gives the transaction again. *)
Lemma Transaction_from_to_dict (now : datetime) (t : Transaction) :
  constructed t → Transaction_from_dict now (Transaction_to_dict t) = Ok t.
Proof.
  intros [Hup Hid]. unfold Transaction_from_dict.
  destruct (Transaction_to_dict_getitem t) as (-> & -> & -> & -> & ->).
  rewrite !bind_Ok, TransactionType_of_value_value, !bind_Ok.
  unfold py_fromisoformat. rewrite fromisoformat_isoformat, bind_Ok.
  rewrite Transaction_to_dict_get_id, bind_Ok.
  unfold Transaction_init. cbn [upper py_float default]. rewrite !bind_Ok.
  rewrite Hup, py_or_id by done. by destruct t.
Qed.

Lemma load_transactions_to_dict (now : datetime) (l : list Transaction) :
  Forall constructed l →
  ∀ acc, foldM (load_transaction now) (Transaction_to_dict <$> l) acc
         = Ok (acc ++ l).
Proof.
  induction 1 as [|t l Ht _ IH]; intros acc.
  - simpl. by rewrite app_nil_r.
  - assert (load_transaction now acc (Transaction_to_dict t)
            = Ok (acc ++ [t])) as Hload.
    { unfold load_transaction. by rewrite Transaction_from_to_dict. }
    rewrite fmap_cons, foldM_cons, Hload, bind_Ok, IH.
    by rewrite <- app_assoc.
Qed.

Lemma load_stocks_to_dict (sts : dict Stock) :
  ∀ acc, ∃ sts', foldM load_stock (dict_map Stock_to_dict sts) acc = Ok sts'.
Proof.
  induction sts as [|[k s] sts IH]; intros acc; [by eexists|].
  unfold dict_map. rewrite map_cons, foldM_cons. apply IH.
Qed.

Lemma Portfolio_to_dict_get (self : Portfolio) :
  get_method (Portfolio_to_dict self) "name" (PStr "My Portfolio")
    = Ok (name self) ∧
  get_method (Portfolio_to_dict self) "stocks" (PDict [])
    = Ok (PDict (dict_map Stock_to_dict (stocks self))) ∧
  get_method (Portfolio_to_dict self) "transactions" (PList [])
    = Ok (PList (Transaction_to_dict <$> transactions self)).
Proof. by repeat split. Qed.

Lemma Portfolio_from_to_dict (now : datetime) (self : Portfolio) :
  Forall constructed (transactions self) →
  ∃ sts, Portfolio_from_dict now (Portfolio_to_dict self) =
           Ok {| name := name self;
                 transactions := transactions self;
                 stocks := sts |}.
Proof.
  intros Hall. unfold Portfolio_from_dict.
  destruct (Portfolio_to_dict_get self) as (-> & -> & ->).
  rewrite !bind_Ok. cbn [items]. rewrite !bind_Ok.
  destruct (load_stocks_to_dict (stocks self) []) as [sts ->].
  rewrite !bind_Ok. cbn [py_iter]. rewrite bind_Ok.
  rewrite load_transactions_to_dict by done. rewrite bind_Ok.
  by eexists.
Qed.

(** C5. For a portfolio built from transactions that the constructor
    returned, loading the snapshot that [to_dict] writes succeeds, and the
    loaded portfolio has the same holdings, realized gains and dividend
    income. *)
Theorem snapshot_round_trip (now : datetime) (self : Portfolio) :
  built self →
  ∃ loaded,
    Portfolio_from_dict now (Portfolio_to_dict self) = Ok loaded ∧
    transactions loaded = transactions self ∧
    get_holdings loaded = get_holdings self ∧
    get_realized_gains loaded = get_realized_gains self ∧
    get_dividend_income loaded = get_dividend_income self.
Proof.
  intros Hb.
  destruct (Portfolio_from_to_dict now self) as [sts ->];
    [by apply built_constructed|].
  eexists. split; [done|]. by repeat split.
Qed.

(** ** The stored [total_value] *)

Lemma dict_get_drop_field (k : string) (d : dict pyval) :
  k ≠ "total_value" →
  dict_get k (filter (λ kv, kv.1 ≠ "total_value") d) = dict_get k d.
Proof.
  intros Hk. induction d as [|[k' v] d IH]; [done|].
  destruct (decide (k' = "total_value")) as [->|Hk'].
  - rewrite filter_cons_False by (simpl; auto). simpl.
    by rewrite decide_False.
  - rewrite filter_cons_True by done. simpl. by rewrite IH.
Qed.

Lemma getitem_drop_total_value (td : pyval) (k : string) :
  k ≠ "total_value" → getitem (drop_total_value td) k = getitem td k.
Proof.
  intros Hk. destruct td; try done. simpl. by rewrite dict_get_drop_field.
Qed.

Lemma get_method_drop_total_value (td : pyval) (k : string) (dflt : pyval) :
  k ≠ "total_value" →
  get_method (drop_total_value td) k dflt = get_method td k dflt.
Proof.
  intros Hk. destruct td; try done. simpl. by rewrite dict_get_drop_field.
Qed.

Lemma Transaction_from_dict_drop (now : datetime) (td : pyval) :
  Transaction_from_dict now (drop_total_value td)
    = Transaction_from_dict now td.
Proof.
  unfold Transaction_from_dict.
  rewrite !getitem_drop_total_value by done.
  by rewrite get_method_drop_total_value by done.
Qed.

Lemma load_transactions_drop (now : datetime) (l : list pyval) :
  ∀ acc, foldM (load_transaction now) (map drop_total_value l) acc
         = foldM (load_transaction now) l acc.
Proof.
  induction l as [|td l IH]; intros acc; [done|].
  assert (load_transaction now acc (drop_total_value td)
          = load_transaction now acc td) as Hload.
  { unfold load_transaction. by rewrite Transaction_from_dict_drop. }
  rewrite map_cons, !foldM_cons, Hload.
  destruct (load_transaction now acc td) as [acc'|e]; [|done].
  rewrite !bind_Ok. apply IH.
Qed.

Lemma dict_get_drop_values (k : string) (d : dict pyval) :
  dict_get k (map (λ kv, if decide (kv.1 = "transactions")
                         then (kv.1, drop_in_list kv.2) else kv) d)
  = if decide (k = "transactions")
    then drop_in_list <$> dict_get k d
    else dict_get k d.
Proof.
  induction d as [|[k' v] d IH];
    [by destruct (decide (k = "transactions"))|].
  rewrite map_cons. cbn [fst snd].
  destruct (decide (k' = "transactions")) as [Hk'|Hk']; cbn [dict_get];
    destruct (decide (k' = k)) as [Hk|Hk]; try exact IH; subst k.
  - by rewrite decide_True.
  - by rewrite decide_False.
Qed.

Lemma get_method_drop_values_ne (s : pyval) (k : string) (dflt : pyval) :
  k ≠ "transactions" →
  get_method (drop_total_values s) k dflt = get_method s k dflt.
Proof.
  intros Hk. destruct s; try done. simpl.
  by rewrite dict_get_drop_values, decide_False.
Qed.

Lemma get_method_drop_values_transactions (s : pyval) :
  get_method (drop_total_values s) "transactions" (PList [])
  = drop_in_list <$> get_method s "transactions" (PList []).
Proof.
  destruct s; try done. simpl.
  rewrite dict_get_drop_values, decide_True by done.
  by destruct (dict_get "transactions" d).
Qed.

(** Loading ignores the [total_value] fields of the records. *)
Lemma Portfolio_from_dict_drop (now : datetime) (s : pyval) :
  Portfolio_from_dict now (drop_total_values s) = Portfolio_from_dict now s.
Proof.
  unfold Portfolio_from_dict.
  rewrite (get_method_drop_values_ne s "name") by done.
  rewrite (get_method_drop_values_ne s "stocks") by done.
  rewrite get_method_drop_values_transactions.
  destruct (get_method s "name" _) as [nm|e]; [|done]. rewrite !bind_Ok.
  destruct (get_method s "stocks" _) as [sv|e]; [|done]. rewrite !bind_Ok.
  destruct (items sv) as [its|e]; [|done]. rewrite !bind_Ok.
  destruct (foldM load_stock its []) as [sts|e]; [|done]. rewrite !bind_Ok.
  destruct (get_method s "transactions" _) as [tv|e]; [|done].
  cbn [fmap result_fmap]. rewrite !bind_Ok.
  destruct tv; try done. cbn [drop_in_list py_iter]. rewrite !bind_Ok.
  by rewrite load_transactions_drop.
Qed.

(** C9. Two snapshots that differ in the [total_value] fields of their
    transaction records only (they are equal once these fields are dropped)
    load to the same result, so the holdings, realized gains and dividend
    income of the loaded portfolios are the same; the [total_value] of every
    loaded transaction is [quantity * price]. *)
Theorem total_value_not_authoritative (now : datetime) (s1 s2 : pyval) :
  drop_total_values s1 = drop_total_values s2 →
  Portfolio_from_dict now s1 = Portfolio_from_dict now s2 ∧
  ∀ p1 p2,
    Portfolio_from_dict now s1 = Ok p1 →
    Portfolio_from_dict now s2 = Ok p2 →
    get_holdings p1 = get_holdings p2 ∧
    get_realized_gains p1 = get_realized_gains p2 ∧
    get_dividend_income p1 = get_dividend_income p2 ∧
    Forall (λ t, total_value t = quantity t * price t) (transactions p1).
Proof.
  intros Heq.
  assert (Portfolio_from_dict now s1 = Portfolio_from_dict now s2) as Hload.
  { rewrite <- (Portfolio_from_dict_drop now s1), Heq.
    apply Portfolio_from_dict_drop. }
  split; [done|]. intros p1 p2 H1 H2.
  rewrite H1, H2 in Hload. injection Hload as <-.
  repeat split. by apply Forall_forall.
Qed.

(** ** Loading a malformed snapshot *)

(** What the [except] clause does cover: text that is not JSON, and a
    record without a required field. *)
Lemma load_portfolio_not_json (now : datetime) :
  load_portfolio now NotJson = Ok None.
Proof. reflexivity. Qed.

Lemma load_portfolio_missing_field (now : datetime) :
  load_portfolio now (Json (snapshot [PDict [("ticker", PStr "AAPL")]]))
    = Ok None.
Proof. reflexivity. Qed.

(** C4, where the code departs from it. A snapshot whose one record has a
    [transaction_type] that is not a member of the enum makes
    [TransactionType(...)] raise [ValueError]; [load_portfolio] catches
    [JSONDecodeError] and [KeyError] only, so the exception reaches the
    caller, and [_load_or_create_portfolio] with it. *)
Theorem load_portfolio_raises_on_unknown_type (now : datetime) :
  load_portfolio now
    (Json (snapshot [record "HOLD" "T2024-01-15" 10 150 1500]))
    = Raise ValueError ∧
  load_or_create_portfolio now
    (Json (snapshot [record "HOLD" "T2024-01-15" 10 150 1500]))
    = Raise ValueError.
Proof. split; reflexivity. Qed.

(** The same for a date that [datetime.fromisoformat] rejects. *)
Lemma load_portfolio_raises_on_bad_date (now : datetime) (dt : string) :
  fromisoformat dt = None →
  load_portfolio now (Json (snapshot [record "BUY" dt 10 150 1500]))
    = Raise ValueError.
Proof.
  intros Hdt. cbv -[fromisoformat]. by rewrite Hdt.
Qed.

End Properties.

(** * Further properties of the code *)

(** ** Dictionaries: keys *)

Lemma bind_Ok_inv {A B : Type} (m : result A) (f : A → result B) (b : B) :
  m ≫= f = Ok b → ∃ a, m = Ok a ∧ f a = Ok b.
Proof. destruct m as [a|e]; [by exists a | done]. Qed.

Lemma dict_get_None_keys {V : Type} (k : string) (d : dict V) :
  dict_get k d = None ↔ k ∉ dict_keys d.
Proof.
  induction d as [|[k' v] d IH]; simpl.
  - split; [intros _; apply not_elem_of_nil | done].
  - rewrite not_elem_of_cons. destruct (decide (k' = k)) as [->|Hne].
    + split; [done | by intros [? _]].
    + rewrite IH. split; [by intros ?; split | by intros [_ ?]].
Qed.

Lemma dict_set_absent {V : Type} (k : string) (v : V) (d : dict V) :
  k ∉ dict_keys d → dict_set k v d = d ++ [(k, v)].
Proof.
  induction d as [|[k' v'] d IH]; simpl; [done|].
  rewrite not_elem_of_cons. intros [Hne Hk].
  rewrite decide_False by done. by rewrite IH.
Qed.

Lemma dict_keys_set {V : Type} (k : string) (v : V) (d : dict V) :
  dict_keys (dict_set k v d)
    = if decide (k ∈ dict_keys d) then dict_keys d else dict_keys d ++ [k].
Proof.
  unfold dict_keys. induction d as [|[k' v'] d IH]; cbn [dict_set map fst].
  - destruct (decide (k ∈ [])) as [Hin|_]; [|done].
    by apply elem_of_nil in Hin.
  - destruct (decide (k' = k)) as [->|Hne]; cbn [map fst].
    + rewrite decide_True; [done | apply list_elem_of_here].
    + rewrite IH. destruct (decide (k ∈ map fst d)) as [Hin|Hin].
      * rewrite decide_True; [done | by apply list_elem_of_further].
      * rewrite decide_False; [done|].
        rewrite not_elem_of_cons. by split.
Qed.

Lemma NoDup_dict_set {V : Type} (k : string) (v : V) (d : dict V) :
  NoDup (dict_keys d) → NoDup (dict_keys (dict_set k v d)).
Proof.
  intros Hnd. rewrite dict_keys_set.
  destruct (decide (k ∈ dict_keys d)) as [Hin|Hin]; [done|].
  apply list.NoDup_app. split; [done|]. split.
  - intros x Hx Hx'. apply list_elem_of_singleton in Hx'. by subst.
  - apply NoDup_singleton.
Qed.

Lemma Forall_dict_set {V : Type} (P : V → Prop) (k : string) (v : V)
    (d : dict V) :
  Forall (λ kv, P kv.2) d → P v → Forall (λ kv, P kv.2) (dict_set k v d).
Proof.
  intros Hall Hv. induction Hall as [|[k' v'] d Hv' Hall IH]; simpl.
  - by apply Forall_singleton.
  - destruct (decide (k' = k)); by apply Forall_cons.
Qed.

Section FurtherProperties.
Context `{PyLib}.

(** ** Round trips of the records *)

Lemma Stock_new_constructed (tk : string) (nm : pyval) :
  stock_constructed (Stock_new tk nm).
Proof.
  split; simpl; [apply str_upper_idemp|].
  unfold py_or. destruct (truthy nm) eqn:Hnm; [by rewrite Hnm|].
  destruct (truthy (PStr tk)) eqn:Htk; [done|].
  simpl in Htk. apply negb_false_iff, bool_decide_eq_true in Htk. by subst.
Qed.

Lemma Stock_init_constructed (tk nm : pyval) (s : Stock) :
  Stock_init tk nm = Ok s → stock_constructed s.
Proof.
  destruct tk; try done. intros [= <-]. apply Stock_new_constructed.
Qed.

Lemma Stock_from_dict_constructed (data : pyval) (s : Stock) :
  Stock_from_dict data = Ok s → stock_constructed s.
Proof.
  unfold Stock_from_dict. intros Hs.
  apply bind_Ok_inv in Hs as (tk & _ & Hs).
  apply bind_Ok_inv in Hs as (nm & _ & Hs).
  by eapply Stock_init_constructed.
Qed.

Lemma Stock_from_to_dict (s : Stock) :
  stock_constructed s → Stock_from_dict (Stock_to_dict s) = Ok s.
Proof.
  intros [Hup Hnm]. unfold Stock_from_dict.
  change (getitem (Stock_to_dict s) "ticker") with (Ok (PStr (stock_ticker s))).
  change (get_method (Stock_to_dict s) "name" (PStr EmptyString))
    with (Ok (stock_name s)).
  rewrite !bind_Ok. unfold Stock_init, Stock_new. rewrite Hup, Hnm.
  by destruct s.
Qed.

Lemma Transaction_from_dict_constructed (now : datetime) (data : pyval)
    (t : Transaction) :
  Transaction_from_dict now data = Ok t → constructed t.
Proof.
  unfold Transaction_from_dict. intros Ht.
  do 8 (apply bind_Ok_inv in Ht as (? & _ & Ht)).
  by eapply Transaction_init_constructed.
Qed.

(** X1. [Stock.from_dict(s.to_dict())] is [s] for every stock the constructor
    returns, whatever the case of the ticker and whether a name was
    given. *)
Theorem Stock_round_trip (tk nm : pyval) (s : Stock) :
  Stock_init tk nm = Ok s → Stock_from_dict (Stock_to_dict s) = Ok s.
Proof.
  intros Hs. by eapply Stock_from_to_dict, Stock_init_constructed.
Qed.

(** X2. [Transaction.from_dict(t.to_dict())] is [t], identifier and date
    included, for every transaction the constructor returns; the clock is
    not consulted. *)
Theorem Transaction_round_trip
    (now : datetime) (tk : pyval) (kind : TransactionType) (qty prc : pyval)
    (dt : option datetime) (tid : pyval) (t : Transaction) :
  Transaction_init now tk kind qty prc dt tid = Ok t →
  ∀ later, Transaction_from_dict later (Transaction_to_dict t) = Ok t.
Proof.
  intros Ht later.
  by eapply Transaction_from_to_dict, Transaction_init_constructed.
Qed.

(** ** Exact round trip of a portfolio *)

Lemma load_stocks_exact (sts : dict Stock) :
  ∀ acc,
    Forall (λ kv, stock_constructed kv.2) sts →
    NoDup (dict_keys (acc ++ sts)) →
    foldM load_stock (dict_map Stock_to_dict sts) acc = Ok (acc ++ sts).
Proof.
  induction sts as [|[k s] sts IH]; intros acc Hall Hnd.
  - simpl. by rewrite app_nil_r.
  - apply Forall_cons_1 in Hall as [Hs Hall]. simpl in Hs.
    assert (load_stock acc (k, Stock_to_dict s) = Ok (dict_set k s acc))
      as Hload.
    { unfold load_stock. cbn [fst snd]. by rewrite Stock_from_to_dict. }
    unfold dict_map. rewrite map_cons. cbn [fst snd].
    rewrite foldM_cons, Hload, bind_Ok.
    fold (dict_map Stock_to_dict sts).
    rewrite dict_set_absent.
    + rewrite (IH (acc ++ [(k, s)])); [by rewrite <- app_assoc | done |].
      by rewrite <- app_assoc.
    + unfold dict_keys in *. rewrite map_app in Hnd.
      apply list.NoDup_app in Hnd as (_ & Hdisj & _).
      intros Hin. apply (Hdisj k Hin). simpl. apply list_elem_of_here.
Qed.

Lemma normal_round_trip (now : datetime) (p : Portfolio) :
  normal p → Portfolio_from_dict now (Portfolio_to_dict p) = Ok p.
Proof.
  intros (Htx & Hnd & Hst). unfold Portfolio_from_dict.
  destruct (Portfolio_to_dict_get p) as (-> & -> & ->).
  rewrite !bind_Ok. cbn [items]. rewrite !bind_Ok.
  rewrite (load_stocks_exact (stocks p) []) by done.
  rewrite !bind_Ok. cbn [py_iter]. rewrite bind_Ok.
  rewrite load_transactions_to_dict by done. rewrite bind_Ok.
  by destruct p.
Qed.

Lemma add_transaction_normal (p : Portfolio) (t : Transaction) :
  normal p → constructed t → normal (add_transaction p t).
Proof.
  intros (Htx & Hnd & Hst) Ht. repeat split; simpl.
  - apply Forall_app. split; [done | by apply Forall_singleton].
  - destruct (dict_get (ticker t) (stocks p)); [done|].
    by apply NoDup_dict_set.
  - destruct (dict_get (ticker t) (stocks p)); [done|].
    apply (Forall_dict_set stock_constructed); [done|].
    apply Stock_new_constructed.
Qed.

Lemma add_stock_normal (p : Portfolio) (s : Stock) :
  normal p → stock_constructed s → normal (add_stock p s).
Proof.
  intros (Htx & Hnd & Hst) Hs. repeat split; simpl; [done | |].
  - by apply NoDup_dict_set.
  - by apply (Forall_dict_set stock_constructed).
Qed.

Lemma constructor_built_normal (p : Portfolio) :
  constructor_built p → normal p.
Proof.
  induction 1 as [nm|p now tk kind qty prc dt tid t _ IH Ht|p tk nm s _ IH Hs].
  - repeat split; simpl; [done | apply NoDup_nil_2 | done].
  - apply add_transaction_normal; [done|].
    by eapply Transaction_init_constructed.
  - apply add_stock_normal; [done|]. by eapply Stock_init_constructed.
Qed.

Lemma load_stocks_normal (its : dict pyval) :
  ∀ acc sts,
    NoDup (dict_keys acc) →
    Forall (λ kv, stock_constructed kv.2) acc →
    foldM load_stock its acc = Ok sts →
    NoDup (dict_keys sts) ∧ Forall (λ kv, stock_constructed kv.2) sts.
Proof.
  induction its as [|[k sd] its IH]; intros acc sts Hnd Hall Hload.
  - injection Hload as <-. by split.
  - rewrite foldM_cons in Hload.
    apply bind_Ok_inv in Hload as (acc' & Hstep & Hload).
    unfold load_stock in Hstep. cbn [fst snd] in Hstep.
    apply bind_Ok_inv in Hstep as (s & Hs & [= <-]).
    apply (IH _ _ (NoDup_dict_set k s acc Hnd)); [|done].
    apply (Forall_dict_set stock_constructed); [done|].
    by eapply Stock_from_dict_constructed.
Qed.

Lemma load_transactions_constructed (now : datetime) (tds : list pyval) :
  ∀ acc txs,
    Forall constructed acc →
    foldM (load_transaction now) tds acc = Ok txs →
    Forall constructed txs.
Proof.
  induction tds as [|td tds IH]; intros acc txs Hall Hload.
  - by injection Hload as <-.
  - rewrite foldM_cons in Hload.
    apply bind_Ok_inv in Hload as (acc' & Hstep & Hload).
    unfold load_transaction in Hstep.
    apply bind_Ok_inv in Hstep as (t & Ht & [= <-]).
    apply (IH (acc ++ [t])); [|done].
    apply Forall_app. split; [done|]. apply Forall_singleton.
    by eapply Transaction_from_dict_constructed.
Qed.

Lemma Portfolio_from_dict_normal (now : datetime) (data : pyval)
    (p : Portfolio) :
  Portfolio_from_dict now data = Ok p → normal p.
Proof.
  unfold Portfolio_from_dict. intros Hp.
  apply bind_Ok_inv in Hp as (nm & _ & Hp).
  apply bind_Ok_inv in Hp as (sv & _ & Hp).
  apply bind_Ok_inv in Hp as (its & _ & Hp).
  apply bind_Ok_inv in Hp as (sts & Hsts & Hp).
  apply bind_Ok_inv in Hp as (tv & _ & Hp).
  apply bind_Ok_inv in Hp as (tds & _ & Hp).
  apply bind_Ok_inv in Hp as (txs & Htxs & [= <-]).
  apply load_stocks_normal in Hsts as [Hnd Hall];
    [| apply NoDup_nil_2 | done].
  apply load_transactions_constructed in Htxs; [|done].
  by repeat split.
Qed.

(** X3. Loading the snapshot of a portfolio built with the constructors gives
    the portfolio back exactly: its name, its stock registry in order and
    its transactions. *)
Theorem Portfolio_round_trip_exact (now : datetime) (p : Portfolio) :
  constructor_built p →
  Portfolio_from_dict now (Portfolio_to_dict p) = Ok p.
Proof. intros Hp. by apply normal_round_trip, constructor_built_normal. Qed.

(** X4. Whatever snapshot was loaded, hand-written ones included, the loaded
    portfolio is normalised: writing it out and loading it again changes
    nothing. *)
Theorem loaded_portfolio_reloads (now later : datetime) (data : pyval)
    (p : Portfolio) :
  Portfolio_from_dict now data = Ok p →
  Portfolio_from_dict later (Portfolio_to_dict p) = Ok p.
Proof.
  intros Hp. by eapply normal_round_trip, Portfolio_from_dict_normal.
Qed.

(** ** The data store *)

(** X5. Saving a portfolio built with the constructors and loading it again
    gives the portfolio back, and so does the start of a CLI session; a
    cleared store reports no file and loads to nothing, so that the CLI
    starts from the empty portfolio named [My Portfolio]. *)
Theorem save_load_clear (now : datetime) (p : Portfolio) :
  constructor_built p →
  portfolio_exists (save_portfolio p) = true ∧
  load_portfolio now (save_portfolio p) = Ok (Some p) ∧
  load_or_create_portfolio now (save_portfolio p) = Ok p ∧
  portfolio_exists (clear_portfolio (save_portfolio p)) = false ∧
  load_portfolio now (clear_portfolio (save_portfolio p)) = Ok None ∧
  load_or_create_portfolio now (clear_portfolio (save_portfolio p))
    = Ok (Portfolio_init (PStr "My Portfolio")).
Proof.
  intros Hp.
  assert (load_portfolio now (save_portfolio p) = Ok (Some p)) as Hload.
  { unfold load_portfolio, save_portfolio, json_load.
    rewrite bind_Ok, normal_round_trip by by apply constructor_built_normal.
    done. }
  repeat split; try done.
  unfold load_or_create_portfolio. by rewrite Hload.
Qed.

(** ** The holdings view, from the replay state *)

Lemma foldM_invariant {A B : Type} (P : B → Prop) (f : B → A → result B) :
  (∀ b a b', P b → f b a = Ok b' → P b') →
  ∀ l b b', P b → foldM f l b = Ok b' → P b'.
Proof.
  intros Hf l. induction l as [|x l IH]; intros b b' Hb Hl.
  - by injection Hl as <-.
  - rewrite foldM_cons in Hl. apply bind_Ok_inv in Hl as (b1 & Hx & Hl).
    eauto.
Qed.

(** A step of the holdings replay rewrites the entry of its ticker, or
    nothing. *)
Lemma holdings_step_shape (d : dict entry) (t : Transaction) :
  holdings_step d t = Ok d ∨
  ∃ e, holdings_step d t = Ok (dict_set (ticker t) e d).
Proof.
  destruct (transaction_type t) eqn:Hk.
  - right. eexists. by apply holdings_step_buy.
  - right. destruct (decide (0 < open_quantity (dd_read (ticker t) d))).
    + eexists. by apply holdings_step_sell_pos.
    + eexists. by apply holdings_step_sell_nonpos.
  - left. unfold holdings_step. by rewrite Hk.
Qed.

Lemma holdings_data_after_NoDup (l : list Transaction) (d : dict entry) :
  holdings_data_after l = Ok d → NoDup (dict_keys d).
Proof.
  apply (foldM_invariant (λ d, NoDup (dict_keys d)) holdings_step);
    [|apply NoDup_nil_2].
  intros b t b' Hb Hstep.
  destruct (holdings_step_shape b t) as [Heq | [e Heq]];
    rewrite Heq in Hstep; injection Hstep as <-; [done|].
  by apply NoDup_dict_set.
Qed.

Lemma positive_holdings_keys (items : dict entry) (k : string) :
  k ∈ dict_keys (positive_holdings items) → k ∈ dict_keys items.
Proof.
  unfold positive_holdings, dict_keys.
  induction items as [|[k' e] items IH]; [done|].
  cbn [omap list_omap]. unfold positive_holding at 1. cbn [fst snd].
  destruct (decide (0 < open_quantity e)); cbn [map fst].
  - rewrite !elem_of_cons. intros [-> | Hin]; auto.
  - rewrite elem_of_cons. auto.
Qed.

Lemma holdings_collect_all (items : dict entry) :
  ∀ acc : dict Holding,
    NoDup (dict_keys acc ++ dict_keys items) →
    foldM holdings_collect items acc = Ok (acc ++ positive_holdings items).
Proof.
  induction items as [|[k e] items IH]; intros acc Hnd.
  - simpl. by rewrite app_nil_r.
  - rewrite foldM_cons. unfold positive_holdings.
    cbn [omap list_omap]. fold (positive_holdings items).
    unfold positive_holding at 1. cbn [fst snd].
    assert (k ∉ dict_keys acc) as Hk.
    { apply list.NoDup_app in Hnd as (_ & Hdisj & _).
      intros Hin. apply (Hdisj k Hin). apply list_elem_of_here. }
    destruct (decide (0 < open_quantity e)) as [Hq|Hq].
    + rewrite holdings_collect_pos by done. rewrite bind_Ok.
      rewrite dict_set_absent by done. rewrite IH.
      * by rewrite <- app_assoc.
      * unfold dict_keys in *. rewrite map_app. cbn [map fst].
        by rewrite <- app_assoc.
    + unfold holdings_collect. rewrite decide_False by done.
      rewrite bind_Ok. apply IH.
      unfold dict_keys in *. cbn [map fst] in Hnd.
      apply list.NoDup_app in Hnd as (Hacc & Hdisj & Hit).
      apply list.NoDup_app. split; [done|]. split.
      * intros x Hx Hx'. apply (Hdisj x Hx). by apply list_elem_of_further.
      * by apply NoDup_cons_1_2 in Hit.
Qed.

Lemma NoDup_positive_holdings (items : dict entry) :
  NoDup (dict_keys items) → NoDup (dict_keys (positive_holdings items)).
Proof.
  induction items as [|[k e] items IH]; [done|].
  unfold dict_keys. cbn [map fst]. intros Hnd.
  apply list.NoDup_cons in Hnd as [Hk Hnd].
  unfold positive_holdings. cbn [omap list_omap].
  fold (positive_holdings items). unfold positive_holding at 1.
  cbn [fst snd]. destruct (decide (0 < open_quantity e)); [|by apply IH].
  cbn [map fst]. apply list.NoDup_cons. split; [|by apply IH].
  intros Hin. by apply Hk, positive_holdings_keys.
Qed.

Lemma dd_read_cons (k tk : string) (e : entry) (d : dict entry) :
  dd_read tk ((k, e) :: d) = if decide (k = tk) then e else dd_read tk d.
Proof. unfold dd_read. simpl. by destruct (decide (k = tk)). Qed.

Lemma dict_get_positive_holdings (items : dict entry) (tk : string) :
  NoDup (dict_keys items) →
  dict_get tk (positive_holdings items) =
    if decide (0 < open_quantity (dd_read tk items))
    then Some (Holding_init tk (open_quantity (dd_read tk items))
                 (open_cost_basis (dd_read tk items)
                  / open_quantity (dd_read tk items)))
    else None.
Proof.
  induction items as [|[k e] items IH]; intros Hnd.
  - cbn. rewrite decide_False; [done | apply (irreflexivity Qclt)].
  - unfold dict_keys in Hnd. cbn [map fst] in Hnd.
    apply list.NoDup_cons in Hnd as [Hk Hnd].
    rewrite dd_read_cons. unfold positive_holdings. cbn [omap list_omap].
    fold (positive_holdings items). unfold positive_holding at 1.
    cbn [fst snd].
    destruct (decide (k = tk)) as [->|Hne].
    + destruct (decide (0 < open_quantity e)) as [Hq|Hq].
      * cbn [dict_get]. by rewrite decide_True.
      * apply dict_get_None_keys. intros Hin.
        by apply Hk, positive_holdings_keys.
    + rewrite <- IH by done.
      destruct (decide (0 < open_quantity e)); [|done].
      cbn [dict_get]. by rewrite decide_False.
Qed.

Lemma get_holdings_positive_holdings (self : Portfolio) (d : dict entry) :
  holdings_data_after (transactions self) = Ok d →
  get_holdings self = Ok (positive_holdings d).
Proof.
  intros Hd. unfold get_holdings. rewrite Hd, bind_Ok.
  rewrite holdings_collect_all; [done|]. simpl.
  by eapply holdings_data_after_NoDup.
Qed.

Lemma holdings_data_after_total (l : list Transaction) :
  ∃ d, holdings_data_after l = Ok d.
Proof. apply foldM_total, holdings_step_total. Qed.

Lemma holdings_tracker_after_total (l : list Transaction) :
  ∃ rg d, holdings_tracker_after l = Ok (rg, d).
Proof.
  destruct (foldM_total gains_step gains_step_total l (0, [])) as [[rg d] Hl].
  by exists rg, d.
Qed.

(** X8. [get_holdings] reports exactly the tickers whose replayed quantity is
    strictly positive, each once and in the order of the replay's
    dictionary, with the replayed quantity and the cost basis per share. *)
Theorem get_holdings_characterised (self : Portfolio) :
  ∃ d hs,
    holdings_data_after (transactions self) = Ok d ∧
    get_holdings self = Ok hs ∧
    hs = positive_holdings d ∧
    NoDup (dict_keys hs) ∧
    ∀ tk,
      dict_get tk hs =
        if decide (0 < open_quantity (dd_read tk d))
        then Some (Holding_init tk (open_quantity (dd_read tk d))
                     (open_cost_basis (dd_read tk d)
                      / open_quantity (dd_read tk d)))
        else None.
Proof.
  destruct (holdings_data_after_total (transactions self)) as [d Hd].
  pose proof (holdings_data_after_NoDup _ _ Hd) as Hnd.
  exists d, (positive_holdings d). repeat split; [done | | |].
  - by apply get_holdings_positive_holdings.
  - by apply NoDup_positive_holdings.
  - intros tk. by apply dict_get_positive_holdings.
Qed.

(** X9. Every holding that [get_holdings] reports has a strictly positive
    quantity, the quantity the replay holds for its key, carries the key in
    upper case as ticker, and has as average cost the cost basis the replay
    holds divided by that quantity. *)
Theorem holdings_are_positive (self : Portfolio) :
  ∃ d hs,
    holdings_data_after (transactions self) = Ok d ∧
    get_holdings self = Ok hs ∧
    ∀ tk h, dict_get tk hs = Some h →
      0 < holding_quantity h ∧
      holding_ticker h = str_upper tk ∧
      holding_quantity h = open_quantity (dd_read tk d) ∧
      average_cost h
        = open_cost_basis (dd_read tk d) / open_quantity (dd_read tk d).
Proof.
  destruct (holdings_data_after_total (transactions self)) as [d Hd].
  pose proof (holdings_data_after_NoDup _ _ Hd) as Hnd.
  exists d, (positive_holdings d).
  split; [done|]. split; [by apply get_holdings_positive_holdings|].
  intros tk h Hh. rewrite dict_get_positive_holdings in Hh by done.
  destruct (decide (0 < _)) as [Hq|]; [|done]. by injection Hh as <-.
Qed.

(** ** The effect of one more transaction *)

Lemma holdings_data_after_add (self : Portfolio) (t : Transaction)
    (d : dict entry) :
  holdings_data_after (transactions self) = Ok d →
  holdings_data_after (transactions (add_transaction self t))
    = holdings_step d t.
Proof.
  intros Hd. by rewrite transactions_add, holdings_data_after_snoc, Hd.
Qed.

Lemma get_holdings_lookup (self : Portfolio) (d : dict entry)
    (hs : dict Holding) (tk : string) :
  holdings_data_after (transactions self) = Ok d →
  get_holdings self = Ok hs →
  dict_get tk hs =
    if decide (0 < open_quantity (dd_read tk d))
    then Some (Holding_init tk (open_quantity (dd_read tk d))
                 (open_cost_basis (dd_read tk d)
                  / open_quantity (dd_read tk d)))
    else None.
Proof.
  intros Hd Hhs. rewrite (get_holdings_positive_holdings self d Hd) in Hhs.
  injection Hhs as <-. apply dict_get_positive_holdings.
  by eapply holdings_data_after_NoDup.
Qed.

Lemma get_holdings_held (self : Portfolio) (d : dict entry)
    (hs : dict Holding) (tk : string) (h : Holding) :
  holdings_data_after (transactions self) = Ok d →
  get_holdings self = Ok hs →
  dict_get tk hs = Some h →
  0 < open_quantity (dd_read tk d) ∧
  h = Holding_init tk (open_quantity (dd_read tk d))
        (open_cost_basis (dd_read tk d) / open_quantity (dd_read tk d)).
Proof.
  intros Hd Hhs Hh. rewrite (get_holdings_lookup self d hs tk Hd Hhs) in Hh.
  destruct (decide (0 < _)) as [Hq|]; [|done]. by injection Hh as <-.
Qed.

(** X10. A transaction on one ticker leaves the holdings of every other ticker
    as they were. *)
Theorem other_tickers_untouched (self : Portfolio) (t : Transaction) :
  ∃ hs hs',
    get_holdings self = Ok hs ∧
    get_holdings (add_transaction self t) = Ok hs' ∧
    ∀ tk, tk ≠ ticker t → dict_get tk hs' = dict_get tk hs.
Proof.
  destruct (holdings_data_after_total (transactions self)) as [d Hd].
  destruct (holdings_data_after_total (transactions (add_transaction self t)))
    as [d' Hd'].
  exists (positive_holdings d), (positive_holdings d').
  pose proof (get_holdings_positive_holdings _ _ Hd) as Hhs.
  pose proof (get_holdings_positive_holdings _ _ Hd') as Hhs'.
  repeat split; [done | done |]. intros tk Hne.
  rewrite (get_holdings_lookup _ _ _ tk Hd Hhs).
  rewrite (get_holdings_lookup _ _ _ tk Hd' Hhs').
  rewrite (holdings_data_after_add self t d Hd) in Hd'.
  assert (dd_read tk d' = dd_read tk d) as ->; [|done].
  destruct (holdings_step_shape d t) as [Heq | [e Heq]];
    rewrite Heq in Hd'; injection Hd' as <-; [done|].
  by apply dd_read_set_ne.
Qed.

(** X11. A SELL on a held ticker keeps the ticker among the holdings exactly
    when less than the held quantity is sold. The holding then has the
    quantity sold taken off, and as average cost what is left of the cost
    basis (the cost basis before, less the average cost times the quantity
    sold) divided by the quantity left. *)
Theorem sell_reduces_holding
    (self : Portfolio) (s : Transaction) (hs : dict Holding) (h : Holding) :
  transaction_type s = SELL →
  get_holdings self = Ok hs →
  dict_get (ticker s) hs = Some h →
  ∃ d hs',
    holdings_data_after (transactions self) = Ok d ∧
    get_holdings (add_transaction self s) = Ok hs' ∧
    dict_get (ticker s) hs' =
      if decide (quantity s < holding_quantity h)
      then Some {| holding_ticker := holding_ticker h;
                   holding_quantity := holding_quantity h - quantity s;
                   average_cost :=
                     (open_cost_basis (dd_read (ticker s) d)
                      - average_cost h * quantity s)
                     / (holding_quantity h - quantity s) |}
      else None.
Proof.
  intros Hk Hhs Hh.
  destruct (holdings_data_after_total (transactions self)) as [d Hd].
  destruct (get_holdings_held _ _ _ _ _ Hd Hhs Hh) as [Hq ->].
  pose proof (holdings_data_after_add self s d Hd) as Hd'.
  rewrite holdings_step_sell_pos in Hd' by done.
  exists d. eexists. split; [done|].
  split; [by apply get_holdings_positive_holdings|].
  rewrite dict_get_positive_holdings by by eapply holdings_data_after_NoDup.
  rewrite dd_read_set_eq. cbn [open_quantity open_cost_basis Holding_init
    holding_quantity holding_ticker average_cost].
  destruct (decide (quantity s < open_quantity (dd_read (ticker s) d)))
    as [Hlt|Hge].
  - apply Qclt_minus_iff in Hlt. by rewrite decide_True.
  - rewrite decide_False; [done|]. intros Hpos.
    by apply Hge, Qclt_minus_iff.
Qed.

(** X12. A BUY of a positive quantity on a held ticker pools the purchase into
    the holding: the quantities add up and the average cost becomes the cost
    basis before plus the value of the purchase, divided by the new
    quantity. *)
Theorem buy_pools_into_holding
    (self : Portfolio) (b : Transaction) (hs : dict Holding) (h : Holding) :
  transaction_type b = BUY →
  0 < quantity b →
  get_holdings self = Ok hs →
  dict_get (ticker b) hs = Some h →
  ∃ d hs',
    holdings_data_after (transactions self) = Ok d ∧
    get_holdings (add_transaction self b) = Ok hs' ∧
    dict_get (ticker b) hs' =
      Some {| holding_ticker := holding_ticker h;
              holding_quantity := holding_quantity h + quantity b;
              average_cost :=
                (open_cost_basis (dd_read (ticker b) d) + total_value b)
                / (holding_quantity h + quantity b) |}.
Proof.
  intros Hk Hb Hhs Hh.
  destruct (holdings_data_after_total (transactions self)) as [d Hd].
  destruct (get_holdings_held _ _ _ _ _ Hd Hhs Hh) as [Hq ->].
  pose proof (holdings_data_after_add self b d Hd) as Hd'.
  rewrite holdings_step_buy in Hd' by done.
  exists d. eexists. split; [done|].
  split; [by apply get_holdings_positive_holdings|].
  rewrite dict_get_positive_holdings by by eapply holdings_data_after_NoDup.
  rewrite dd_read_set_eq. cbn [open_quantity open_cost_basis Holding_init
    holding_quantity holding_ticker average_cost].
  rewrite decide_True; [done|].
  apply Qcplus_pos_nonneg; [done | by apply Qclt_le_weak].
Qed.

(** X13. On a ledger whose SELLs all met a positive quantity, a SELL on a held
    ticker adds to the realized gains its sale value less the average cost
    of the holding, as [get_holdings] reports it, times the quantity
    sold. *)
Theorem covered_sale_books_margin
    (self : Portfolio) (s : Transaction) (hs : dict Holding) (h : Holding)
    (rg : Qc) :
  sells_covered [] (transactions self) = true →
  transaction_type s = SELL →
  get_holdings self = Ok hs →
  dict_get (ticker s) hs = Some h →
  get_realized_gains self = Ok rg →
  get_realized_gains (add_transaction self s)
    = Ok (rg + (total_value s - average_cost h * quantity s)).
Proof.
  intros Hc Hk Hhs Hh Hrg.
  destruct (sells_covered_agree (transactions self) 0 [] Hc)
    as (rg' & d & Hd & Htr).
  change (holdings_data_after (transactions self) = Ok d) in Hd.
  change (holdings_tracker_after (transactions self) = Ok (rg', d)) in Htr.
  destruct (get_holdings_held _ _ _ _ _ Hd Hhs Hh) as [Hq ->].
  unfold get_realized_gains in *. rewrite Htr in Hrg. injection Hrg as ->.
  rewrite transactions_add, holdings_tracker_after_snoc, Htr, bind_Ok.
  by rewrite gains_step_sell_pos.
Qed.

(** ** Ledgers without over-sell *)

Lemma not_negative_read (k : string) (d : dict entry) :
  Forall (λ kv, not_negative kv.2) d → not_negative (dd_read k d).
Proof.
  intros Hall. unfold dd_read. induction Hall as [|[k' e] d He _ IH]; simpl.
  - apply (irreflexivity Qclt).
  - by destruct (decide (k' = k)).
Qed.

Lemma within_holdings_cons (d : dict entry) (t : Transaction)
    (l : list Transaction) :
  within_holdings d (t :: l) = true →
  match transaction_type t with
  | BUY => 0 < quantity t
  | SELL => 0 < quantity t ∧
            quantity t ≤ open_quantity (dd_read (ticker t) d)
  | DIVIDEND => True
  end ∧
  ∃ d', holdings_step d t = Ok d' ∧ within_holdings d' l = true.
Proof.
  simpl. intros Hw. apply andb_prop in Hw as [Hcond Hrest]. split.
  - destruct (transaction_type t); [| |done].
    + by apply bool_decide_eq_true in Hcond.
    + apply andb_prop in Hcond as [Hq Hle].
      by apply bool_decide_eq_true in Hq, Hle.
  - destruct (holdings_step d t) as [d'|]; [by exists d' | done].
Qed.

Lemma within_step_not_negative (d d' : dict entry) (t : Transaction) :
  Forall (λ kv, not_negative kv.2) d →
  within_holdings d [t] = true →
  holdings_step d t = Ok d' →
  Forall (λ kv, not_negative kv.2) d'.
Proof.
  intros Hall Hw Hstep.
  apply within_holdings_cons in Hw as [Hcond _].
  pose proof (not_negative_read (ticker t) d Hall) as Hge.
  apply Qcnot_lt_le in Hge.
  destruct (transaction_type t) eqn:Hk.
  - rewrite holdings_step_buy in Hstep by done. injection Hstep as <-.
    apply (Forall_dict_set not_negative); [done|].
    apply Qcle_not_lt, Qclt_le_weak. simpl.
    rewrite Qcplus_comm. by apply Qcplus_pos_nonneg.
  - destruct Hcond as [Hq Hle].
    assert (0 < open_quantity (dd_read (ticker t) d)) as Hpos
      by by eapply Qclt_le_trans.
    rewrite holdings_step_sell_pos in Hstep by done. injection Hstep as <-.
    apply (Forall_dict_set not_negative); [done|].
    apply Qcle_not_lt. simpl. by apply Qcle_minus_iff in Hle.
  - unfold holdings_step in Hstep. rewrite Hk in Hstep.
    by injection Hstep as <-.
Qed.

Lemma within_holdings_single (d : dict entry) (t : Transaction)
    (l : list Transaction) :
  within_holdings d (t :: l) = true → within_holdings d [t] = true.
Proof.
  simpl. intros Hw. apply andb_prop in Hw as [Hcond Hrest].
  rewrite Hcond. by destruct (holdings_step d t).
Qed.

Lemma within_not_negative (l : list Transaction) :
  ∀ d d',
    Forall (λ kv, not_negative kv.2) d →
    within_holdings d l = true →
    foldM holdings_step l d = Ok d' →
    Forall (λ kv, not_negative kv.2) d'.
Proof.
  induction l as [|t l IH]; intros d d' Hall Hw Hl.
  - by injection Hl as <-.
  - pose proof (within_holdings_single _ _ _ Hw) as Hw1.
    apply within_holdings_cons in Hw as (_ & d1 & Hstep & Hw).
    rewrite foldM_cons, Hstep, bind_Ok in Hl.
    eapply IH; [|done|done]. by eapply within_step_not_negative.
Qed.

Lemma within_covered (l : list Transaction) :
  ∀ d, within_holdings d l = true → sells_covered d l = true.
Proof.
  induction l as [|t l IH]; intros d Hw; [done|].
  apply within_holdings_cons in Hw as (Hcond & d1 & Hstep & Hw).
  simpl. rewrite Hstep. apply andb_true_intro. split; [|by apply IH].
  destruct (decide (transaction_type t = SELL)) as [Hk|]; [|done].
  rewrite Hk in Hcond. destruct Hcond as [Hq Hle].
  apply bool_decide_eq_true. by eapply Qclt_le_trans.
Qed.

Lemma within_holdings_app (l1 l2 : list Transaction) :
  ∀ d d1,
    within_holdings d l1 = true →
    foldM holdings_step l1 d = Ok d1 →
    within_holdings d1 l2 = true →
    within_holdings d (l1 ++ l2) = true.
Proof.
  induction l1 as [|t l1 IH]; intros d d1 Hw Hl Hw2.
  - by injection Hl as <-.
  - pose proof (within_holdings_single _ _ _ Hw) as Hw1.
    apply within_holdings_cons in Hw as (_ & d' & Hstep & Hw).
    rewrite foldM_cons, Hstep, bind_Ok in Hl.
    pose proof (IH d' d1 Hw Hl Hw2) as Hrest.
    simpl in Hw1 |- *. rewrite Hstep in Hw1 |- *.
    apply andb_prop in Hw1 as [Hcond _]. by rewrite Hcond.
Qed.

(** X17. On a ledger without over-sell (every BUY of a positive quantity,
    every SELL of a positive quantity that is at most the quantity held
    when it arrives), no replayed quantity is negative after any prefix of
    the ledger. *)
Theorem no_negative_position
    (self : Portfolio) (prefix rest : list Transaction) :
  within_holdings [] (transactions self) = true →
  transactions self = prefix ++ rest →
  ∃ d,
    holdings_data_after prefix = Ok d ∧
    ∀ tk, ¬ open_quantity (dd_read tk d) < 0.
Proof.
  intros Hw Hl. rewrite Hl in Hw.
  destruct (holdings_data_after_total prefix) as [d Hd].
  exists d. split; [done|]. intros tk.
  apply not_negative_read.
  eapply (within_not_negative prefix []); [done | | done].
  clear Hd Hl. revert Hw. generalize (@nil (string * entry)).
  induction prefix as [|t l IH]; intros d0 Hw; [done|].
  rewrite <- app_comm_cons in Hw.
  pose proof (within_holdings_single _ _ _ Hw) as Hw1.
  apply within_holdings_cons in Hw as (_ & d1 & Hstep & Hw).
  simpl in Hw1 |- *. rewrite Hstep in Hw1 |- *.
  apply andb_prop in Hw1 as [Hcond _]. rewrite Hcond. by apply IH.
Qed.

(** ** The first BUY of a ticker *)

Lemma holdings_data_after_keys (l : list Transaction) :
  ∀ d k, holdings_data_after l = Ok d → k ∈ dict_keys d → k ∈ ticker <$> l.
Proof.
  induction l as [|t l IH] using rev_ind; intros d k Hd Hk.
  - injection Hd as <-. by apply elem_of_nil in Hk.
  - destruct (holdings_data_after_total l) as [d0 Hd0].
    rewrite holdings_data_after_snoc, Hd0, bind_Ok in Hd.
    rewrite fmap_app. apply elem_of_app.
    destruct (holdings_step_shape d0 t) as [Heq | [e Heq]];
      rewrite Heq in Hd; injection Hd as <-; [left; eauto|].
    rewrite dict_keys_set in Hk.
    destruct (decide (ticker t ∈ dict_keys d0)); [left; eauto|].
    apply elem_of_app in Hk as [Hk | Hk]; [left; eauto|].
    right. apply list_elem_of_singleton in Hk as ->.
    apply list_elem_of_here.
Qed.

(** X14. The first BUY of a ticker, of a positive quantity, opens a holding of
    that quantity whose average cost is the value of the purchase divided
    by the quantity: nothing is left over from the transactions on other
    tickers. *)
Theorem first_buy_opens_holding (self : Portfolio) (b : Transaction) :
  transaction_type b = BUY →
  0 < quantity b →
  ticker b ∉ ticker <$> transactions self →
  ∃ hs',
    get_holdings (add_transaction self b) = Ok hs' ∧
    dict_get (ticker b) hs'
      = Some (Holding_init (ticker b) (quantity b)
                (total_value b / quantity b)).
Proof.
  intros Hk Hq Hnew.
  destruct (holdings_data_after_total (transactions self)) as [d Hd].
  assert (dd_read (ticker b) d = entry_zero) as Hread.
  { unfold dd_read. replace (dict_get (ticker b) d) with (@None entry); [done|].
    symmetry. apply dict_get_None_keys. intros Hin.
    by eapply Hnew, holdings_data_after_keys. }
  pose proof (holdings_data_after_add self b d Hd) as Hd'.
  rewrite holdings_step_buy in Hd' by done. rewrite Hread in Hd'.
  eexists. split; [by apply get_holdings_positive_holdings|].
  rewrite dict_get_positive_holdings by by eapply holdings_data_after_NoDup.
  rewrite dd_read_set_eq. cbn [open_quantity open_cost_basis entry_zero].
  by rewrite !Qcplus_0_l, decide_True.
Qed.

(** ** Transactions by ticker *)

(** X18. [get_transactions_by_ticker] does not mind the case of its argument,
    returns transactions of the ledger in ledger order, and returns exactly
    those whose ticker is the argument in upper case. *)
Theorem transactions_by_ticker (self : Portfolio) (tk : string) :
  get_transactions_by_ticker self tk
    = get_transactions_by_ticker self (str_upper tk) ∧
  get_transactions_by_ticker self tk `sublist_of` transactions self ∧
  ∀ t, t ∈ get_transactions_by_ticker self tk ↔
       t ∈ transactions self ∧ ticker t = str_upper tk.
Proof.
  unfold get_transactions_by_ticker. split; [|split].
  - by rewrite str_upper_idemp.
  - apply sublist_filter.
  - intros t. rewrite list_elem_of_filter. split; by intros [? ?].
Qed.

(** X19. A transaction is found again under its ticker typed in any case: one
    constructed with ticker [s] and appended is the last transaction that
    [get_transactions_by_ticker] returns for every [tk] that equals [s] up
    to case. *)
Theorem appended_transaction_found
    (self : Portfolio) (now : datetime) (s : string) (kind : TransactionType)
    (qty prc : pyval) (dt : option datetime) (tid : pyval) (t : Transaction)
    (tk : string) :
  Transaction_init now (PStr s) kind qty prc dt tid = Ok t →
  str_upper tk = str_upper s →
  get_transactions_by_ticker (add_transaction self t) tk
    = get_transactions_by_ticker self tk ++ [t].
Proof.
  intros Ht Htk. unfold get_transactions_by_ticker.
  rewrite transactions_add, list.filter_app.
  rewrite filter_cons_True, filter_nil; [done|].
  unfold Transaction_init in Ht. cbn [upper] in Ht. rewrite bind_Ok in Ht.
  apply bind_Ok_inv in Ht as (q & _ & Ht).
  apply bind_Ok_inv in Ht as (p & _ & Ht). by injection Ht as <-.
Qed.

(** ** The stock registry *)

Lemma dict_get_set_is_Some {V : Type} (k k' : string) (v : V) (d : dict V) :
  is_Some (dict_get k' d) → is_Some (dict_get k' (dict_set k v d)).
Proof.
  destruct (decide (k = k')) as [->|Hne].
  - rewrite dict_get_set_eq. by eexists.
  - by rewrite dict_get_set_ne.
Qed.

Lemma Forall_dict_set_key {V : Type} (P : string → V → Prop) (k : string)
    (v : V) (d : dict V) :
  Forall (λ kv, P kv.1 kv.2) d → P k v →
  Forall (λ kv, P kv.1 kv.2) (dict_set k v d).
Proof.
  intros Hall Hv. induction Hall as [|[k' v'] d Hv' Hall IH]; simpl.
  - by apply Forall_singleton.
  - destruct (decide (k' = k)) as [->|]; by apply Forall_cons.
Qed.

Lemma add_transaction_registers_new (self : Portfolio) (t : Transaction) :
  is_Some (dict_get (ticker t) (stocks (add_transaction self t))).
Proof.
  simpl. destruct (dict_get (ticker t) (stocks self)) as [s|] eqn:Hs.
  - rewrite Hs. by eexists.
  - rewrite dict_get_set_eq. by eexists.
Qed.

Lemma add_transaction_registers_old (self : Portfolio) (t : Transaction)
    (k : string) (s : Stock) :
  dict_get k (stocks self) = Some s →
  dict_get k (stocks (add_transaction self t)) = Some s.
Proof.
  intros Hk. simpl.
  destruct (dict_get (ticker t) (stocks self)) as [s'|] eqn:Hs; [done|].
  rewrite dict_get_set_ne; [done|]. intros <-. congruence.
Qed.

(** X20. [add_transaction] registers the ticker when it is new, under the ticker
    itself as name, and never replaces a stock that is registered. *)
Theorem add_transaction_registers (self : Portfolio) (t : Transaction) :
  (dict_get (ticker t) (stocks self) = None →
   dict_get (ticker t) (stocks (add_transaction self t))
     = Some {| stock_ticker := str_upper (ticker t);
               stock_name := PStr (ticker t) |}) ∧
  ∀ k s, dict_get k (stocks self) = Some s →
         dict_get k (stocks (add_transaction self t)) = Some s.
Proof.
  split; [|intros k s; apply add_transaction_registers_old].
  intros Hnew. simpl. rewrite Hnew, dict_get_set_eq. done.
Qed.

(** X21. In a portfolio built by [add_transaction] and [add_stock], every ticker
    of the ledger is registered, every stock is registered under its own
    ticker, and no ticker is registered twice. *)
Theorem ledger_tickers_registered (self : Portfolio) :
  built self →
  (∀ t, t ∈ transactions self →
        is_Some (dict_get (ticker t) (stocks self))) ∧
  Forall (λ kv, stock_ticker kv.2 = kv.1) (stocks self) ∧
  NoDup (dict_keys (stocks self)).
Proof.
  induction 1 as [nm|self now tk kind qty prc dt tid t _ IH Ht|self s _ IH].
  - repeat split; [|done|apply NoDup_nil_2].
    intros t Ht. by apply elem_of_nil in Ht.
  - destruct IH as (Hreg & Hkey & Hnd).
    apply Transaction_init_constructed in Ht as [Hup _].
    repeat split.
    + intros t' Ht'. rewrite transactions_add in Ht'.
      apply elem_of_app in Ht' as [Ht' | Ht'].
      * destruct (Hreg t' Ht') as [s Hs]. exists s.
        by apply add_transaction_registers_old.
      * apply list_elem_of_singleton in Ht' as ->.
        apply add_transaction_registers_new.
    + simpl. destruct (dict_get (ticker t) (stocks self)); [done|].
      apply (Forall_dict_set_key (λ k s, stock_ticker s = k)); [done|].
      done.
    + simpl. destruct (dict_get (ticker t) (stocks self)); [done|].
      by apply NoDup_dict_set.
  - destruct IH as (Hreg & Hkey & Hnd). repeat split; simpl.
    + intros t Ht. by apply dict_get_set_is_Some, Hreg.
    + by apply (Forall_dict_set_key (λ k s, stock_ticker s = k)).
    + by apply NoDup_dict_set.
Qed.

(** ** The CLI operations *)

Lemma Transaction_init_numbers
    (now : datetime) (tk : string) (kind : TransactionType) (q p : Qc) :
  Transaction_init now (PStr tk) kind (PNum q) (PNum p) None PNone =
    Ok {| ticker := str_upper tk;
          transaction_type := kind;
          quantity := q;
          price := p;
          date := now;
          transaction_id :=
            PStr (Transaction_generate_id (str_upper tk) now) |}.
Proof. reflexivity. Qed.

Lemma not_nonpositive (q p : Qc) : ¬ (q ≤ 0 ∨ p ≤ 0) → 0 < q ∧ 0 < p.
Proof.
  intros Hn. split; apply Qcnot_le_lt; intros Hle; apply Hn; auto.
Qed.

Lemma within_holdings_one (d : dict entry) (t : Transaction) :
  match transaction_type t with
  | BUY => 0 < quantity t
  | SELL => 0 < quantity t ∧
            quantity t ≤ open_quantity (dd_read (ticker t) d)
  | DIVIDEND => True
  end →
  within_holdings d [t] = true.
Proof.
  intros Hcond. simpl. destruct (holdings_step_total d t) as [d' ->].
  rewrite andb_true_r. destruct (transaction_type t); [| |done].
  - by apply bool_decide_eq_true.
  - destruct Hcond. apply andb_true_intro.
    split; by apply bool_decide_eq_true.
Qed.

Lemma within_holdings_add (self : Portfolio) (t : Transaction)
    (d : dict entry) :
  within_holdings [] (transactions self) = true →
  holdings_data_after (transactions self) = Ok d →
  match transaction_type t with
  | BUY => 0 < quantity t
  | SELL => 0 < quantity t ∧
            quantity t ≤ open_quantity (dd_read (ticker t) d)
  | DIVIDEND => True
  end →
  within_holdings [] (transactions (add_transaction self t)) = true.
Proof.
  intros Hw Hd Hcond. rewrite transactions_add.
  eapply within_holdings_app; [done | exact Hd |].
  by apply within_holdings_one.
Qed.

Lemma cli_invariant_added (c : PortfolioCLI) (p1 : Portfolio)
    (now : datetime) (tk : string) (kind : TransactionType) (q p : Qc)
    (t : Transaction) (d : dict entry) :
  cli_invariant c →
  constructor_built p1 →
  transactions p1 = transactions (cli_portfolio c) →
  Transaction_init now (PStr tk) kind (PNum q) (PNum p) None PNone = Ok t →
  0 < q → 0 < p →
  holdings_data_after (transactions (cli_portfolio c)) = Ok d →
  (kind = SELL → q ≤ open_quantity (dd_read (str_upper tk) d)) →
  cli_invariant (cli_save (cli_with c (add_transaction p1 t))).
Proof.
  intros (Hb & Hw & Hpos & _) Hb1 Htxs Ht Hq Hp Hd Hsell.
  pose proof Ht as Ht'. rewrite Transaction_init_numbers in Ht'.
  injection Ht' as Ht'.
  repeat split; cbn [cli_save cli_with cli_portfolio cli_file].
  - by eapply cbuilt_add_transaction.
  - apply (within_holdings_add p1 t d); rewrite ?Htxs; [done | done |].
    rewrite <- Ht'. cbn [transaction_type quantity ticker].
    destruct kind; auto.
  - rewrite transactions_add, Htxs. apply Forall_app. split; [done|].
    apply Forall_singleton. by rewrite <- Ht'.
  - by right.
Qed.

Lemma cli_reachable_invariant (c : PortfolioCLI) :
  cli_reachable c → cli_invariant c.
Proof.
  induction 1 as [now c Hc
                 |now c c' tk qty prc nm r _ IH Hop
                 |now c c' tk qty prc r _ IH Hop
                 |now c c' tk amount r _ IH Hop].
  - injection Hc as <-. repeat split; cbn; [apply cbuilt_init | done | by left].
  - unfold cli_add_buy_transaction in Hop.
    destruct (decide (qty ≤ 0 ∨ prc ≤ 0)) as [|Hpos];
      [by injection Hop as _ <-|].
    apply not_nonpositive in Hpos as [Hq Hp].
    apply bind_Ok_inv in Hop as (p1 & Hp1 & Hop).
    apply bind_Ok_inv in Hop as (t & Ht & Hop). injection Hop as _ <-.
    destruct (holdings_data_after_total (transactions (cli_portfolio c)))
      as [d Hd].
    destruct IH as (Hb & Hrest).
    eapply (cli_invariant_added c p1); try done.
    + destruct (dict_get (str_upper tk) (stocks (cli_portfolio c)));
        [by injection Hp1 as <-|].
      apply bind_Ok_inv in Hp1 as (s & Hs & Hp1). injection Hp1 as <-.
      by eapply cbuilt_add_stock.
    + destruct (dict_get (str_upper tk) (stocks (cli_portfolio c)));
        [by injection Hp1 as <-|].
      apply bind_Ok_inv in Hp1 as (s & Hs & Hp1). by injection Hp1 as <-.
  - unfold cli_add_sell_transaction in Hop.
    apply bind_Ok_inv in Hop as (hs & Hhs & Hop).
    destruct (dict_get (str_upper tk) hs) as [h|] eqn:Hh;
      [|by injection Hop as _ <-].
    destruct (decide (qty ≤ 0 ∨ prc ≤ 0)) as [|Hpos];
      [by injection Hop as _ <-|].
    destruct (decide (holding_quantity h < qty)) as [|Hle];
      [by injection Hop as _ <-|].
    apply not_nonpositive in Hpos as [Hq Hp].
    apply bind_Ok_inv in Hop as (t & Ht & Hop). injection Hop as _ <-.
    destruct (holdings_data_after_total (transactions (cli_portfolio c)))
      as [d Hd].
    destruct (get_holdings_held _ _ _ _ _ Hd Hhs Hh) as [_ ->].
    pose proof IH as (Hb & _).
    eapply (cli_invariant_added c (cli_portfolio c)); try done.
    intros _. by apply Qcnot_lt_le.
  - unfold cli_add_dividend_income in Hop.
    destruct (decide (amount ≤ 0)) as [|Hpos]; [by injection Hop as _ <-|].
    apply Qcnot_le_lt in Hpos.
    apply bind_Ok_inv in Hop as (t & Ht & Hop). injection Hop as _ <-.
    destruct (holdings_data_after_total (transactions (cli_portfolio c)))
      as [d Hd].
    pose proof IH as (Hb & _).
    eapply (cli_invariant_added c (cli_portfolio c)); try done.
Qed.

(** X22. However a CLI session that starts without a data file goes, every
    SELL of its ledger met a strictly positive quantity of its ticker when
    it was entered, so that the holdings replay and the realized-gains
    replay end in the same state. *)
Theorem cli_ledger_sells_covered (c : PortfolioCLI) :
  cli_reachable c →
  sells_covered [] (transactions (cli_portfolio c)) = true ∧
  ∃ rg d,
    holdings_data_after (transactions (cli_portfolio c)) = Ok d ∧
    holdings_tracker_after (transactions (cli_portfolio c)) = Ok (rg, d).
Proof.
  intros Hc. apply cli_reachable_invariant in Hc as (_ & Hw & _ & _).
  apply within_covered in Hw. split; [done|].
  by apply sells_covered_agree.
Qed.

(** X23. In such a session the data file always holds the portfolio in memory:
    starting the CLI again on the file gives the same state. *)
Theorem cli_restart_restores (c : PortfolioCLI) (later : datetime) :
  cli_reachable c →
  PortfolioCLI_init later (cli_file c) = Ok c.
Proof.
  intros Hc. apply cli_reachable_invariant in Hc as (Hb & _ & _ & Hfile).
  unfold PortfolioCLI_init, load_or_create_portfolio.
  destruct c as [p f]. cbn [cli_file cli_portfolio] in *.
  destruct Hfile as [[-> ->] | ->]; [done|].
  unfold load_portfolio, save_portfolio, json_load, try_except.
  rewrite bind_Ok, normal_round_trip by by apply constructor_built_normal.
  done.
Qed.

(** X24. The three operations never raise, and an operation that replies
    anything but [Added] leaves the session as it was. *)
Theorem cli_operations_return
    (now : datetime) (c : PortfolioCLI) (tk : string) (qty prc : Qc)
    (stock_name : option string) :
  (∃ r c', cli_add_buy_transaction now c tk qty prc stock_name = Ok (r, c') ∧
           (r ≠ Added → c' = c)) ∧
  (∃ r c', cli_add_sell_transaction now c tk qty prc = Ok (r, c') ∧
           (r ≠ Added → c' = c)) ∧
  (∃ r c', cli_add_dividend_income now c tk prc = Ok (r, c') ∧
           (r ≠ Added → c' = c)).
Proof.
  repeat split.
  - unfold cli_add_buy_transaction.
    destruct (decide (qty ≤ 0 ∨ prc ≤ 0)); [by do 2 eexists|].
    rewrite Transaction_init_numbers.
    destruct (dict_get (str_upper tk) (stocks (cli_portfolio c)));
      do 2 eexists; (split; [reflexivity | done]).
  - unfold cli_add_sell_transaction.
    destruct (holdings_data_after_total (transactions (cli_portfolio c)))
      as [d Hd].
    rewrite (get_holdings_positive_holdings _ d Hd), bind_Ok.
    destruct (dict_get (str_upper tk) (positive_holdings d)) as [h|];
      [|by do 2 eexists].
    destruct (decide (qty ≤ 0 ∨ prc ≤ 0)); [by do 2 eexists|].
    destruct (decide (holding_quantity h < qty)); [by do 2 eexists|].
    rewrite Transaction_init_numbers. do 2 eexists.
    split; [reflexivity | done].
  - unfold cli_add_dividend_income.
    destruct (decide (prc ≤ 0)); [by do 2 eexists|].
    rewrite Transaction_init_numbers. do 2 eexists.
    split; [reflexivity | done].
Qed.

(** X25. A SELL that the CLI adds is of a held ticker and passed both checks:
    neither number is [<= 0] and the quantity is not [>] the quantity held.
    Afterwards the ticker is among the holdings exactly when less than the
    held quantity was sold, with the quantity sold taken off and, as average
    cost, what is left of the cost basis divided by the quantity left. *)
Theorem cli_sell_added
    (now : datetime) (c c' : PortfolioCLI) (tk : string) (qty prc : Qc) :
  cli_add_sell_transaction now c tk qty prc = Ok (Added, c') →
  ∃ d hs h hs',
    holdings_data_after (transactions (cli_portfolio c)) = Ok d ∧
    get_holdings (cli_portfolio c) = Ok hs ∧
    dict_get (str_upper tk) hs = Some h ∧
    ¬ (qty ≤ 0 ∨ prc ≤ 0) ∧
    ¬ holding_quantity h < qty ∧
    get_holdings (cli_portfolio c') = Ok hs' ∧
    dict_get (str_upper tk) hs' =
      if decide (qty < holding_quantity h)
      then Some {| holding_ticker := holding_ticker h;
                   holding_quantity := holding_quantity h - qty;
                   average_cost :=
                     (open_cost_basis (dd_read (str_upper tk) d)
                      - average_cost h * qty)
                     / (holding_quantity h - qty) |}
      else None.
Proof.
  unfold cli_add_sell_transaction. intros Hop.
  apply bind_Ok_inv in Hop as (hs & Hhs & Hop).
  destruct (dict_get (str_upper tk) hs) as [h|] eqn:Hh; [|done].
  destruct (decide (qty ≤ 0 ∨ prc ≤ 0)) as [|Hpos]; [done|].
  destruct (decide (holding_quantity h < qty)) as [|Hle]; [done|].
  rewrite Transaction_init_numbers, bind_Ok in Hop. injection Hop as <-.
  cbn [cli_save cli_with cli_portfolio].
  set (t := {| ticker := str_upper tk; transaction_type := SELL |}) in *.
  destruct (holdings_data_after_total (transactions (cli_portfolio c)))
    as [d Hd].
  destruct (get_holdings_held _ _ _ _ _ Hd Hhs Hh) as [Hoq Heq].
  pose proof (holdings_data_after_add (cli_portfolio c) t d Hd) as Hd'.
  rewrite holdings_step_sell_pos in Hd' by done.
  exists d, hs, h. eexists. repeat split; try done.
  { by apply get_holdings_positive_holdings. }
  rewrite dict_get_positive_holdings by by eapply holdings_data_after_NoDup.
  subst h. subst t.
  cbn [ticker quantity Holding_init holding_quantity holding_ticker
       average_cost] in *.
  rewrite dd_read_set_eq. cbn [open_quantity open_cost_basis].
  destruct (decide (qty < open_quantity (dd_read (str_upper tk) d)))
    as [Hlt|Hge].
  - apply Qclt_minus_iff in Hlt. by rewrite decide_True.
  - rewrite decide_False; [done|]. intros Hpos'.
    by apply Hge, Qclt_minus_iff.
Qed.

End FurtherProperties.

(** * The ledger on concrete inputs *)

Section Examples.
#[local] Existing Instance text_lib.

(** Two rationals are equal when their representatives are. *)
Ltac qc_eq :=
  vm_compute;
  repeat first [reflexivity | apply Qc_is_canon; reflexivity | progress f_equal].

(** The scenarios of the test suite. *)

Example gains_buy_10_sell_5 :
  get_realized_gains (ledger [tx "AAPL" BUY 10 150; tx "AAPL" SELL 5 160])
    = Ok (num 50).
Proof. qc_eq. Qed.

Example holdings_two_buys :
  get_holdings (ledger [tx "AAPL" BUY 50 150; tx "AAPL" BUY 25 155])
    = Ok [("AAPL", Holding_init "AAPL" (num 75) (Q2Qc (455 # 3)))].
Proof. unfold Holding_init. qc_eq. Qed.

Example holdings_two_buys_one_sell :
  let self := ledger [tx "AAPL" BUY 50 150; tx "AAPL" BUY 25 155;
                      tx "AAPL" SELL 25 165] in
  get_holdings self
    = Ok [("AAPL", Holding_init "AAPL" (num 50) (Q2Qc (455 # 3)))] ∧
  get_realized_gains self = Ok (Q2Qc (1000 # 3)).
Proof. unfold Holding_init. split; qc_eq. Qed.

Example sell_everything_leaves_no_holding :
  get_holdings (ledger [tx "AAPL" BUY 10 150; tx "AAPL" SELL 10 160]) = Ok [].
Proof. reflexivity. Qed.

Example dividend_income_of_test :
  get_dividend_income
    (ledger [tx "AAPL" BUY 10 150; tx "AAPL" DIVIDEND 1 50]) = num 50.
Proof. qc_eq. Qed.

(** ** A SELL with nothing held *)

(** Against C1 as stated: on the empty ledger the replayed quantity of AAPL
    is 0; a SELL of 5 at 160 has sale value 800, yet [get_realized_gains]
    is 0 after it, not 0 + 800. *)
Lemma sell_at_zero_books_no_gain :
  let s := tx "AAPL" SELL 5 160 in
  holdings_data_after (transactions (ledger [])) = Ok [] ∧
  open_quantity (dd_read (ticker s) []) = num 0 ∧
  get_realized_gains (ledger []) = Ok (num 0) ∧
  total_value s = num 800 ∧
  get_realized_gains (add_transaction (ledger []) s) = Ok (num 0) ∧
  get_realized_gains (add_transaction (ledger []) s)
    ≠ Ok (num 0 + total_value s).
Proof.
  repeat split; try reflexivity; try qc_eq.
  intros Heq. vm_compute in Heq. discriminate Heq.
Qed.

Lemma sell_at_zero_quantity_witness :
  let s := tx "AAPL" SELL 5 160 in
  (get_realized_gains (ledger []) = Ok (num 0) ∧
   get_realized_gains (add_transaction (ledger []) s) = Ok (num 0)) ∧
  ∃ hd',
    holdings_data_after (transactions (add_transaction (ledger []) s))
      = Ok hd' ∧
    open_quantity (dd_read (ticker s) hd') = - quantity s ∧
    open_cost_basis (dd_read (ticker s) hd')
      = open_cost_basis (dd_read (ticker s) []) ∧
    (0 < quantity s → open_quantity (dd_read (ticker s) hd') < 0).
Proof.
  intros s.
  destruct (sell_at_zero_quantity (ledger []) s [] (num 0) []
              eq_refl eq_refl eq_refl) as [Hgains Hholdings].
  split; [apply Hgains; reflexivity | apply Hholdings; reflexivity].
Defined.

Lemma gains_sell_without_quantity_is_noop_witness :
  ∃ tracker',
    gains_step (num 0, []) (tx "AAPL" SELL 5 160) = Ok (num 0, tracker') ∧
    ∀ k, dd_read k tracker' = dd_read k [].
Proof.
  apply gains_sell_without_quantity_is_noop; [reflexivity|].
  vm_compute. discriminate.
Defined.

(** ** The two replays *)



(** ** BUY-only ledgers *)

(** Against C6 as stated: a ledger of the one transaction BUY -5 AAPL at
    150 is a non-empty sequence of BUYs on one ticker, and [get_holdings]
    does not report the ticker. *)
Lemma negative_buy_not_reported :
  let self := ledger [tx "AAPL" BUY (-5) 150] in
  transactions self ≠ [] ∧
  Forall (λ t, transaction_type t = BUY ∧ ticker t = "AAPL")
         (transactions self) ∧
  get_holdings self = Ok [] ∧
  ¬ (∃ h, get_holdings self = Ok [("AAPL", h)]).
Proof.
  repeat split; try done.
  - repeat constructor.
  - intros [h Hh]. vm_compute in Hh. discriminate Hh.
Qed.

Lemma buys_holding_in_ledger_order_witness :
  let self := ledger [tx "AAPL" BUY 50 150; tx "AAPL" BUY 25 155] in
  let total_quantity := foldl Qcplus 0 (quantity <$> transactions self) in
  let total_paid :=
    foldl Qcplus 0 ((λ t, quantity t * price t) <$> transactions self) in
  get_holdings self =
    if decide (0 < total_quantity)
    then Ok [("AAPL",
              Holding_init "AAPL" total_quantity (total_paid / total_quantity))]
    else Ok [].
Proof.
  intros self. apply (buys_holding_in_ledger_order self "AAPL").
  repeat constructor.
Defined.

(** ** Dividends *)


(** ** Construction and snapshots *)

(** Against C2 as stated: the constructor returns a transaction for a
    negative quantity and a zero price. *)
Lemma Transaction_init_takes_nonpositive_numbers :
  ∃ t,
    Transaction_init jan15 (PStr "aapl") BUY
      (PNum (num (-5))) (PNum (num 0)) None PNone = Ok t ∧
    ticker t = "AAPL" ∧
    quantity t = num (-5) ∧ quantity t ≤ 0 ∧
    price t = num 0 ∧ price t ≤ 0.
Proof.
  eexists. split; [reflexivity|].
  repeat split; try reflexivity; vm_compute; discriminate.
Qed.

Lemma ledger_built :
  built (ledger [tx "AAPL" BUY 10 150; tx "AAPL" SELL 5 160]).
Proof.
  apply (built_add_transaction _ jan15 (PStr "AAPL") SELL
           (PNum (num 5)) (PNum (num 160)) (Some jan15)
           (PStr "AAPL_20240115")); [|reflexivity].
  apply (built_add_transaction _ jan15 (PStr "AAPL") BUY
           (PNum (num 10)) (PNum (num 150)) (Some jan15)
           (PStr "AAPL_20240115")); [|reflexivity].
  apply built_init.
Defined.

Lemma snapshot_round_trip_witness :
  let self := ledger [tx "AAPL" BUY 10 150; tx "AAPL" SELL 5 160] in
  ∃ loaded,
    Portfolio_from_dict feb1 (Portfolio_to_dict self) = Ok loaded ∧
    transactions loaded = transactions self ∧
    get_holdings loaded = get_holdings self ∧
    get_realized_gains loaded = get_realized_gains self ∧
    get_dividend_income loaded = get_dividend_income self.
Proof.
  intros self. apply (snapshot_round_trip feb1 self).
  exact ledger_built.
Defined.

Lemma total_value_not_authoritative_witness :
  let s1 := snapshot [record "BUY" "T2024-01-15" 10 150 1500] in
  let s2 := snapshot [record "BUY" "T2024-01-15" 10 150 999999] in
  Portfolio_from_dict feb1 s1 = Portfolio_from_dict feb1 s2 ∧
  ∀ p1 p2,
    Portfolio_from_dict feb1 s1 = Ok p1 →
    Portfolio_from_dict feb1 s2 = Ok p2 →
    get_holdings p1 = get_holdings p2 ∧
    get_realized_gains p1 = get_realized_gains p2 ∧
    get_dividend_income p1 = get_dividend_income p2 ∧
    Forall (λ t, total_value t = quantity t * price t) (transactions p1).
Proof.
  intros s1 s2. apply (total_value_not_authoritative feb1 s1 s2).
  reflexivity.
Defined.

(** The tampered snapshot does load, to one BUY of 10 at 150. *)
Example tampered_snapshot_loads :
  transactions <$>
    Portfolio_from_dict feb1
      (snapshot [record "BUY" "T2024-01-15" 10 150 999999])
  = Ok [tx "AAPL" BUY 10 150].
Proof. reflexivity. Qed.

(** ** Round trips, on the samples *)

Lemma Stock_round_trip_witness :
  Stock_from_dict (Stock_to_dict (Stock_new "aapl" PNone))
    = Ok (Stock_new "aapl" PNone).
Proof. apply (Stock_round_trip (PStr "aapl") PNone). reflexivity. Defined.

Lemma Transaction_round_trip_witness :
  Transaction_from_dict feb1 (Transaction_to_dict (tx "AAPL" BUY 10 150))
    = Ok (tx "AAPL" BUY 10 150).
Proof.
  apply (Transaction_round_trip jan15 (PStr "AAPL") BUY (PNum (num 10))
           (PNum (num 150)) (Some jan15) (PStr "AAPL_20240115")).
  reflexivity.
Defined.

Lemma ledger_constructor_built :
  constructor_built
    (add_stock (ledger [tx "AAPL" BUY 10 150; tx "AAPL" SELL 5 160])
       (Stock_new "msft" (PStr "Microsoft"))).
Proof.
  apply (cbuilt_add_stock _ (PStr "msft") (PStr "Microsoft")); [|reflexivity].
  apply (cbuilt_add_transaction _ jan15 (PStr "AAPL") SELL
           (PNum (num 5)) (PNum (num 160)) (Some jan15)
           (PStr "AAPL_20240115")); [|reflexivity].
  apply (cbuilt_add_transaction _ jan15 (PStr "AAPL") BUY
           (PNum (num 10)) (PNum (num 150)) (Some jan15)
           (PStr "AAPL_20240115")); [|reflexivity].
  apply cbuilt_init.
Defined.

Lemma Portfolio_round_trip_exact_witness :
  let p := add_stock (ledger [tx "AAPL" BUY 10 150; tx "AAPL" SELL 5 160])
             (Stock_new "msft" (PStr "Microsoft")) in
  Portfolio_from_dict feb1 (Portfolio_to_dict p) = Ok p.
Proof.
  intros p. apply (Portfolio_round_trip_exact feb1 p).
  exact ledger_constructor_built.
Defined.

(** A snapshot written by hand, with a lower-case ticker and no
    identifier. *)
Lemma loaded_portfolio_reloads_witness :
  let data :=
    PDict [("transactions",
            PList [PDict [("ticker", PStr "aapl");
                          ("transaction_type", PStr "BUY");
                          ("quantity", PNum (num 10));
                          ("price", PNum (num 150));
                          ("date", PStr "T2024-01-15")]])] in
  ∃ p, Portfolio_from_dict feb1 data = Ok p ∧
       ticker <$> transactions p = ["AAPL"] ∧
       Portfolio_from_dict jan15 (Portfolio_to_dict p) = Ok p.
Proof.
  intros data. eexists. split; [reflexivity|]. split; [reflexivity|].
  apply (loaded_portfolio_reloads feb1 jan15 data). reflexivity.
Defined.

Lemma save_load_clear_witness :
  let p := add_stock (ledger [tx "AAPL" BUY 10 150; tx "AAPL" SELL 5 160])
             (Stock_new "msft" (PStr "Microsoft")) in
  portfolio_exists (save_portfolio p) = true ∧
  load_portfolio feb1 (save_portfolio p) = Ok (Some p) ∧
  load_or_create_portfolio feb1 (save_portfolio p) = Ok p ∧
  portfolio_exists (clear_portfolio (save_portfolio p)) = false ∧
  load_portfolio feb1 (clear_portfolio (save_portfolio p)) = Ok None ∧
  load_or_create_portfolio feb1 (clear_portfolio (save_portfolio p))
    = Ok (Portfolio_init (PStr "My Portfolio")).
Proof.
  intros p. apply (save_load_clear feb1 p). exact ledger_constructor_built.
Defined.

(** ** One more transaction, on the samples *)

Lemma sell_reduces_holding_witness :
  let self := ledger [tx "AAPL" BUY 50 150; tx "AAPL" BUY 25 155] in
  let s := tx "AAPL" SELL 25 165 in
  let h := Holding_init "AAPL" (num 75) (Q2Qc (455 # 3)) in
  ∃ d hs',
    holdings_data_after (transactions self) = Ok d ∧
    get_holdings (add_transaction self s) = Ok hs' ∧
    dict_get (ticker s) hs' =
      if decide (quantity s < holding_quantity h)
      then Some {| holding_ticker := holding_ticker h;
                   holding_quantity := holding_quantity h - quantity s;
                   average_cost :=
                     (open_cost_basis (dd_read (ticker s) d)
                      - average_cost h * quantity s)
                     / (holding_quantity h - quantity s) |}
      else None.
Proof.
  intros self s h.
  apply (sell_reduces_holding self s [("AAPL", h)] h);
    [reflexivity | qc_eq | reflexivity].
Defined.

Lemma buy_pools_into_holding_witness :
  let self := ledger [tx "AAPL" BUY 50 150] in
  let b := tx "AAPL" BUY 25 155 in
  let h := Holding_init "AAPL" (num 50) (num 150) in
  ∃ d hs',
    holdings_data_after (transactions self) = Ok d ∧
    get_holdings (add_transaction self b) = Ok hs' ∧
    dict_get (ticker b) hs' =
      Some {| holding_ticker := holding_ticker h;
              holding_quantity := holding_quantity h + quantity b;
              average_cost :=
                (open_cost_basis (dd_read (ticker b) d) + total_value b)
                / (holding_quantity h + quantity b) |}.
Proof.
  intros self b h.
  apply (buy_pools_into_holding self b [("AAPL", h)] h);
    [reflexivity | reflexivity | qc_eq | reflexivity].
Defined.

Lemma covered_sale_books_margin_witness :
  let self := ledger [tx "AAPL" BUY 10 150] in
  let s := tx "AAPL" SELL 5 160 in
  let h := Holding_init "AAPL" (num 10) (num 150) in
  get_realized_gains (add_transaction self s)
    = Ok (num 0 + (total_value s - average_cost h * quantity s)).
Proof.
  intros self s h.
  apply (covered_sale_books_margin self s [("AAPL", h)] h (num 0));
    [reflexivity | reflexivity | qc_eq | reflexivity | reflexivity].
Defined.

Lemma first_buy_opens_holding_witness :
  let self := ledger [tx "MSFT" BUY 30 350] in
  let b := tx "AAPL" BUY 10 150 in
  ∃ hs',
    get_holdings (add_transaction self b) = Ok hs' ∧
    dict_get (ticker b) hs'
      = Some (Holding_init (ticker b) (quantity b)
                (total_value b / quantity b)).
Proof.
  intros self b.
  apply (first_buy_opens_holding self b); [reflexivity | reflexivity |].
  cbn. intros Hin. apply list_elem_of_singleton in Hin. discriminate Hin.
Defined.

(** ** Ledgers without over-sell, on the samples *)

Lemma no_negative_position_witness :
  let self := ledger [tx "AAPL" BUY 10 150; tx "AAPL" SELL 10 160] in
  ∃ d,
    holdings_data_after [tx "AAPL" BUY 10 150; tx "AAPL" SELL 10 160] = Ok d ∧
    ∀ tk, ¬ open_quantity (dd_read tk d) < 0.
Proof.
  intros self.
  apply (no_negative_position self
           [tx "AAPL" BUY 10 150; tx "AAPL" SELL 10 160] []);
    reflexivity.
Defined.

(** ** Lookups, on the samples *)

Lemma appended_transaction_found_witness :
  get_transactions_by_ticker
    (add_transaction (ledger [tx "MSFT" BUY 30 350]) (tx "AAPL" BUY 10 150))
    "Aapl"
  = get_transactions_by_ticker (ledger [tx "MSFT" BUY 30 350]) "Aapl"
    ++ [tx "AAPL" BUY 10 150].
Proof.
  apply (appended_transaction_found _ jan15 "aapl" BUY (PNum (num 10))
           (PNum (num 150)) (Some jan15) (PStr "AAPL_20240115"));
    reflexivity.
Defined.

Lemma ledger_tickers_registered_witness :
  let self := ledger [tx "AAPL" BUY 10 150; tx "AAPL" SELL 5 160] in
  (∀ t, t ∈ transactions self →
        is_Some (dict_get (ticker t) (stocks self))) ∧
  Forall (λ kv, stock_ticker kv.2 = kv.1) (stocks self) ∧
  NoDup (dict_keys (stocks self)).
Proof.
  intros self. apply (ledger_tickers_registered self). exact ledger_built.
Defined.

(** ** A CLI session *)

Lemma cli2_reachable : cli_reachable cli2.
Proof.
  apply (cli_sell jan15 cli1 cli2 "aapl" (num 4) (num 160) Added);
    [|reflexivity].
  apply (cli_buy jan15 cli0 cli1 "aapl" (num 10) (num 150)
           (Some "Apple Inc.") Added); [|reflexivity].
  apply (cli_start jan15 cli0). reflexivity.
Defined.

Lemma cli_ledger_sells_covered_witness :
  sells_covered [] (transactions (cli_portfolio cli2)) = true ∧
  ∃ rg d,
    holdings_data_after (transactions (cli_portfolio cli2)) = Ok d ∧
    holdings_tracker_after (transactions (cli_portfolio cli2)) = Ok (rg, d).
Proof. apply (cli_ledger_sells_covered cli2). exact cli2_reachable. Defined.

Lemma cli_restart_restores_witness :
  PortfolioCLI_init feb1 (cli_file cli2) = Ok cli2.
Proof. apply (cli_restart_restores cli2 feb1). exact cli2_reachable. Defined.

Lemma cli_sell_added_witness :
  ∃ d hs h hs',
    holdings_data_after (transactions (cli_portfolio cli1)) = Ok d ∧
    get_holdings (cli_portfolio cli1) = Ok hs ∧
    dict_get (str_upper "aapl") hs = Some h ∧
    ¬ (num 4 ≤ 0 ∨ num 160 ≤ 0) ∧
    ¬ holding_quantity h < num 4 ∧
    get_holdings (cli_portfolio cli2) = Ok hs' ∧
    dict_get (str_upper "aapl") hs' =
      if decide (num 4 < holding_quantity h)
      then Some {| holding_ticker := holding_ticker h;
                   holding_quantity := holding_quantity h - num 4;
                   average_cost :=
                     (open_cost_basis (dd_read (str_upper "aapl") d)
                      - average_cost h * num 4)
                     / (holding_quantity h - num 4) |}
      else None.
Proof.
  apply (cli_sell_added jan15 cli1 cli2 "aapl" (num 4) (num 160)).
  reflexivity.
Defined.

(** What the CLI refuses: a SELL of more than is held, of a ticker that is
    not held, and a BUY at price zero. *)
Example cli_refusals :
  cli_add_sell_transaction jan15 cli1 "AAPL" (num 11) (num 160)
    = Ok (NotEnoughShares, cli1) ∧
  cli_add_sell_transaction jan15 cli1 "MSFT" (num 1) (num 350)
    = Ok (NoHoldings, cli1) ∧
  cli_add_buy_transaction jan15 cli1 "AAPL" (num 1) (num 0) None
    = Ok (NotPositive, cli1).
Proof. repeat split. Qed.

End Examples.
